(** * billjs/request: a shallow embedding of [src/index.ts]

    The development follows the source file top to bottom: JavaScript
    values and the few language operations the library relies on, the
    [RequestError] class, the option and response records, the [Request]
    class with its setters and its two transports, the default response
    parser, and finally the exported entry points ([fetch], [get], ...,
    [upload]).  The properties of the library are stated and proved after
    the definitions. *)

From Stdlib Require Import ZArith String Ascii List Bool Lia.
From stdpp Require Import base option gmap strings pretty.
Import ListNotations.
Open Scope string_scope.
Open Scope Z_scope.
Set Warnings "-register-all".

(** ** JavaScript values

    The values that flow through the library are the ones a JSON body can
    hold, plus [undefined].  An object keeps its properties in insertion
    order.

    A number is a double.  The library computes with no number of a body:
    it tests it for truth ([!x], [a || b]), converts it to a string
    (['' + x], the message of an error) and hands it on.  A number is
    therefore kept as what these operations see of it: whether ToBoolean
    makes it [false] (it is 0, -0 or NaN) and the text Number::toString
    gives for it, which is the decimal numeral for an integer below
    10^21, an exponent form from there on, and has a fraction for the
    others. *)

Module Number.
Record t : Type := mk {
  is_falsy : bool;
  toString : string
}.

(** The numbers the library itself makes: HTTP statuses and the constants
    0 and 200, integers of a few digits. *)
Definition of_Z (n : Z) : t := mk (n =? 0) (pretty n).
End Number.

Coercion Number.of_Z : Z >-> Number.t.

Inductive JsVal : Type :=
| JUndefined
| JNull
| JBool (b : bool)
| JNum (n : Number.t)
| JStr (s : string)
| JArr (items : list JsVal)
| JObj (props : list (string * JsVal)).

(** ToBoolean, as used by [if (x)], [!x] and [a || b]. *)
Definition truthy (v : JsVal) : bool :=
  match v with
  | JUndefined | JNull => false
  | JBool b => b
  | JNum n => negb (Number.is_falsy n)
  | JStr s => negb (String.eqb s "")
  | JArr _ | JObj _ => true
  end.

(** [a || b] *)
Definition js_or (a b : JsVal) : JsVal := if truthy a then a else b.

(** [x == null] *)
Definition is_nullish (v : JsVal) : bool :=
  match v with
  | JUndefined | JNull => true
  | _ => false
  end.

(** ** Errors and completions *)

Module RequestError.
(** [class RequestError extends Error]: [status] and [code] are stored as
    given, [message] is the string [super(msg)] makes of [msg], and [stack]
    is overwritten only by a truthy [stack] argument ([None]: the native
    stack trace is kept). *)
Record t : Type := mk {
  status : JsVal;
  code : JsVal;
  message : string;
  stack : option JsVal
}.
End RequestError.

(** What a [throw] or a rejection can carry. *)
Inductive JsError : Type :=
| ReqError (e : RequestError.t)
| TypeError
| SyntaxError
| OtherError (what : JsVal).

(** The completion of an expression or of a function body: it returns a
    value or throws. *)
Inductive Completion (A : Type) : Type :=
| Normal (a : A)
| Throw (e : JsError).
Arguments Normal {A} a.
Arguments Throw {A} e.

Definition bind {A B : Type} (c : Completion A) (k : A -> Completion B)
  : Completion B :=
  match c with
  | Normal a => k a
  | Throw e => Throw e
  end.

Notation "'let*' x ':=' c 'in' k" := (bind c (fun x => k))
  (at level 10, x name, c at level 100, k at level 200).

(** ** Property access *)

Fixpoint assoc_get (k : string) (props : list (string * JsVal)) : option JsVal :=
  match props with
  | [] => None
  | (k', v) :: rest => if String.eqb k k' then Some v else assoc_get k rest
  end.

(** Assignment keeps the position of an existing key and appends a new one. *)
Fixpoint assoc_set (k : string) (v : JsVal) (props : list (string * JsVal))
  : list (string * JsVal) :=
  match props with
  | [] => [(k, v)]
  | (k', v') :: rest =>
      if String.eqb k k' then (k, v) :: rest else (k', v') :: assoc_set k v rest
  end.

(** ToString, as used by ['' + x] and by the [Error] constructor.  An array
    joins its elements with a comma, [null] and [undefined] elements giving
    the empty string.  A plain object prints as [[object Object]]; one that
    carries a [toString] member of its own (never a function in a JSON
    body) cannot be converted, which is a TypeError. *)
Fixpoint js_to_string (v : JsVal) : Completion string :=
  match v with
  | JUndefined => Normal "undefined"
  | JNull => Normal "null"
  | JBool true => Normal "true"
  | JBool false => Normal "false"
  | JNum n => Normal (Number.toString n)
  | JStr s => Normal s
  | JArr items =>
      (fix join (l : list JsVal) : Completion string :=
         match l with
         | [] => Normal ""
         | x :: rest =>
             let* here := (match x with
                           | JUndefined | JNull => Normal ""
                           | _ => js_to_string x
                           end) in
             match rest with
             | [] => Normal here
             | _ :: _ => let* more := join rest in Normal (here ++ "," ++ more)
             end
         end) items
  | JObj props =>
      match assoc_get "toString" props with
      | Some _ => Throw TypeError
      | None => Normal "[object Object]"
      end
  end.

(** [new RequestError(status, code, msg, stack)] *)
Definition new_RequestError (status code msg stack : JsVal)
  : Completion RequestError.t :=
  let* message := js_to_string msg in
  Normal {| RequestError.status := status;
            RequestError.code := code;
            RequestError.message := message;
            RequestError.stack := if truthy stack then Some stack else None |}.

(** The index a property key denotes, if it is the canonical decimal form
    of one (digits only, no leading zero). *)
Definition digit_of (c : ascii) : option N :=
  let n := N_of_ascii c in
  if ((48 <=? n) && (n <=? 57))%N then Some (n - 48)%N else None.

Fixpoint digits_value (acc : N) (s : string) : option N :=
  match s with
  | EmptyString => Some acc
  | String c s' =>
      match digit_of c with
      | Some d => digits_value (10 * acc + d)%N s'
      | None => None
      end
  end.

Definition array_index (k : string) : option N :=
  match k with
  | EmptyString => None
  | String c rest =>
      if Ascii.eqb c "0"
      then (if String.eqb rest "" then Some 0%N else None)
      else digits_value 0 k
  end.

Definition is_index_below (len : nat) (k : string) : bool :=
  match array_index k with
  | Some i => (i <? N.of_nat len)%N
  | None => false
  end.

(** [v.hasOwnProperty(k)]: a property lookup on [null] or [undefined]
    throws a TypeError, and so does the call on an object whose own
    [hasOwnProperty] member (never a function in a JSON body) hides the
    method; arrays and strings own their indices and [length]. *)
Definition hasOwnProperty (v : JsVal) (k : string) : Completion bool :=
  match v with
  | JUndefined | JNull => Throw TypeError
  | JObj props =>
      match assoc_get "hasOwnProperty" props with
      | Some _ => Throw TypeError
      | None => Normal (bool_decide (is_Some (assoc_get k props)))
      end
  | JArr items => Normal (String.eqb k "length" || is_index_below (length items) k)
  | JStr s => Normal (String.eqb k "length" || is_index_below (String.length s) k)
  | JBool _ | JNum _ => Normal false
  end.

(** [v.k] for the keys the library reads ([errormsg], [errorcode],
    [success], [statusCode], [errorCode], [errorMessage], [errorStack],
    [data]): none of them is a member of a built-in prototype, so only own
    properties of objects answer. *)
Definition get_prop (v : JsVal) (k : string) : Completion JsVal :=
  match v with
  | JUndefined | JNull => Throw TypeError
  | JObj props => Normal (default JUndefined (assoc_get k props))
  | _ => Normal JUndefined
  end.

(** [v.k = x].  The library assigns only to a value that passed both
    [hasOwnProperty] tests of [defaultParseResponse], that is to an object
    (see [own_success_is_object]). *)
Definition set_prop (v : JsVal) (k : string) (x : JsVal) : Completion JsVal :=
  match v with
  | JUndefined | JNull => Throw TypeError
  | JObj props => Normal (JObj (assoc_set k x props))
  | _ => Normal v
  end.

(** ** Types of the public interface *)

Inductive RequestMethod : Type := GET | HEAD | POST | PUT | PATCH | DELETE | OPTIONS.

Module RequestType.
Inductive t : Type := json | text | urlencoded | form.
End RequestType.

Module RequestDataType.
Inductive t : Type := json | text.

(** A data type indexes the same table as a submission type. *)
Definition key (d : t) : RequestType.t :=
  match d with
  | json => RequestType.json
  | text => RequestType.text
  end.
End RequestDataType.

(** [type RequestContentType = string | false] *)
Inductive RequestContentType : Type :=
| ContentTypeIs (s : string)
| ContentTypeFalse.

Definition ParseFunction : Type := JsVal -> Completion JsVal.

Module RequestOptions.
(** [interface RequestOptions]: every member is optional, [None] is
    [undefined].  The object is mutable: the verb entries write to it. *)
Record t : Type := mk {
  method : option RequestMethod;
  headers : option (gmap string string);
  type : option RequestType.t;
  dataType : option RequestDataType.t;
  contentType : option RequestContentType;
  timeout : option Z;
  useXHR : option bool;
  credentials : option bool;
  parse : option ParseFunction
}.

(** [{}] *)
Definition empty : t := mk None None None None None None None None None.

Definition set_method (m : RequestMethod) (o : t) : t :=
  mk (Some m) (headers o) (type o) (dataType o) (contentType o)
     (timeout o) (useXHR o) (credentials o) (parse o).

Definition set_type (ty : RequestType.t) (o : t) : t :=
  mk (method o) (headers o) (Some ty) (dataType o) (contentType o)
     (timeout o) (useXHR o) (credentials o) (parse o).
End RequestOptions.

(** [const contentTypes] *)
Definition contentTypes (k : RequestType.t) : string :=
  match k with
  | RequestType.json => "application/json"
  | RequestType.text => "text/plain"
  | RequestType.urlencoded => "application/x-www-form-urlencoded"
  | RequestType.form => "multipart/form-data"
  end.

Definition REQUEST_SUCCESS_STATUS : Z := 200.
Definition REQUEST_300_STATUS : Z := 300.
Definition REQUEST_CACHE_STATUS : Z := 304.

Definition REQUEST_TIMEOUT_STATUS : Z := 504.
Definition REQUEST_TIMEOUT_CODE : string := "1001".
Definition REQUEST_TIMEOUT_MSG : string := "Request Timeout".

Definition REQUEST_ERROR_STATUS : Z := 500.
Definition REQUEST_ERROR_CODE : string := "1000".
Definition REQUEST_ERROR_MSG : string := "Unknow Error".

Definition REQUEST_ABORT_STATUS : Z := 400.
Definition REQUEST_ABORT_CODE : string := "1002".
Definition REQUEST_ABORT_MSG : string := "Request Aborted".

(** ** The two regular expressions *)

(** [/^\?/.test(s)] *)
Definition starts_with_question (s : string) : bool :=
  match s with
  | String c _ => Ascii.eqb c "?"
  | EmptyString => false
  end.

Definition to_lower (c : ascii) : ascii :=
  let n := nat_of_ascii c in
  if ((65 <=? n) && (n <=? 90))%nat then ascii_of_nat (n + 32) else c.

(** Matches a literal at the head of [s] under the [i] flag and returns
    what follows it. *)
Fixpoint match_literal_i (lit s : string) : option string :=
  match lit with
  | EmptyString => Some s
  | String a lit' =>
      match s with
      | String b s' =>
          if Ascii.eqb (to_lower a) (to_lower b) then match_literal_i lit' s' else None
      | EmptyString => None
      end
  end.

(** [.] does not match a line terminator. *)
Definition is_line_terminator (c : ascii) : bool :=
  let n := nat_of_ascii c in ((n =? 10) || (n =? 13))%nat.

(** A lazy [(.*?)] in front of the continuation [k]: the shortest capture
    is tried first, and one more character is taken only when [k] fails. *)
Fixpoint lazy_dot_star {R : Type} (k : string -> string -> option R)
    (captured rest : string) : option R :=
  match k captured rest with
  | Some r => Some r
  | None =>
      match rest with
      | String c rest' =>
          if is_line_terminator c then None
          else lazy_dot_star k (captured ++ String c EmptyString) rest'
      | EmptyString => None
      end
  end.

(** What can follow the optional, greedy group [(?:http[s]?:)?], in the
    order backtracking visits it: with the scheme and its [s], with the
    scheme alone, then without the group. *)
Definition after_scheme (s : string) : list string :=
  match match_literal_i "http" s with
  | Some r1 =>
      match match_literal_i "s" r1 with
      | Some r2 => option_list (match_literal_i ":" r2)
      | None => []
      end ++ option_list (match_literal_i ":" r1)
  | None => []
  end ++ [s].

(** The rest of the pattern, two slashes and the lazy group, tried on each
    alternative in turn.  The pattern ends right after the group, so the
    continuation of the group accepts at once. *)
Fixpoint slashes_then_group (alts : list string) : option string :=
  match alts with
  | [] => None
  | a :: alts' =>
      match match_literal_i "//" a with
      | Some rest =>
          match lazy_dot_star (fun captured (_ : string) => Some captured) "" rest with
          | Some d => Some d
          | None => slashes_then_group alts'
          end
      | None => slashes_then_group alts'
      end
  end.

(** [ABSOLUTE_PATH_REG = /^(?:http[s]?:)?\/\/(.*?)/i]: on a match the
    result is the first capture group, [RegExp.$1]. *)
Definition ABSOLUTE_PATH_REG (s : string) : option string :=
  slashes_then_group (after_scheme s).

(** ** Transport-side records *)

Module Response.
(** What the library reads of a fetch [Response]: [json ()] and [text ()]
    either deliver a value or reject ([None]). *)
Record t : Type := mk {
  status : Z;
  statusText : string;
  json : option JsVal;
  text : option string
}.
End Response.

Module XHR.
(** The [XMLHttpRequest] object as the library drives it.  A handler slot
    holds the one closure the library puts there, or [null] ([false]). *)
Record t : Type := mk {
  withCredentials : bool;
  opened : option (RequestMethod * string);
  requestHeaders : gmap string string;
  timeout : Z;
  onerror : bool;
  onabort : bool;
  ontimeout : bool;
  onload : bool;
  progressListener : bool;
  sent : option JsVal;
  readyState : Z;
  status : Z;
  statusText : string;
  responseText : string
}.

(** [new XMLHttpRequest()] *)
Definition fresh : t :=
  mk false None ∅ 0 false false false false false None 0 0 "" "".

(** The browser fills in the response before it fires [load]. *)
Definition complete (rs st : Z) (stt txt : string) (x : t) : t :=
  mk (withCredentials x) (opened x) (requestHeaders x) (timeout x)
     (onerror x) (onabort x) (ontimeout x) (onload x) (progressListener x)
     (sent x) rs st stt txt.
End XHR.

(** The state of a promise. *)
Inductive Outcome : Type :=
| Resolved (v : JsVal)
| Rejected (e : JsError)
| Unsettled.

(** [resolve] and [reject] act on an unsettled promise only. *)
Definition settle (p : Outcome) (by_ : Outcome) : Outcome :=
  match p with
  | Unsettled => by_
  | _ => p
  end.

(** The runtime the page provides. *)
Module Window.
Record t : Type := mk {
  hostname : string;      (* window.location.hostname *)
  has_fetch : bool;       (* whether window.fetch exists *)
  timer_handle : Z        (* the handle window.setTimeout returns *)
}.
End Window.

(** ** The [Request] class

    The fields of the class with their initial values; [onProgress] and the
    progress handler only forward upload progress and are left out. *)

Record Request : Type := mkRequest {
  _url : string;
  _data : JsVal;
  _type : RequestType.t;
  _dataType : RequestDataType.t;
  headers : gmap string string;
  method : RequestMethod;
  timeout : Z;
  useXHR : bool;
  cors : bool;
  credentials : bool;
  parse : option ParseFunction;
  xhr : option XHR.t;
  fetchTimeoutTimer : Z
}.

(** Field assignment, [this.f = v]. *)
Definition assign_url (v : string) (r : Request) : Request :=
  mkRequest v (_data r) (_type r) (_dataType r) (headers r) (method r)
    (timeout r) (useXHR r) (cors r) (credentials r) (parse r) (xhr r)
    (fetchTimeoutTimer r).

Definition assign_data (v : JsVal) (r : Request) : Request :=
  mkRequest (_url r) v (_type r) (_dataType r) (headers r) (method r)
    (timeout r) (useXHR r) (cors r) (credentials r) (parse r) (xhr r)
    (fetchTimeoutTimer r).

Definition assign_type (v : RequestType.t) (r : Request) : Request :=
  mkRequest (_url r) (_data r) v (_dataType r) (headers r) (method r)
    (timeout r) (useXHR r) (cors r) (credentials r) (parse r) (xhr r)
    (fetchTimeoutTimer r).

Definition assign_dataType (v : RequestDataType.t) (r : Request) : Request :=
  mkRequest (_url r) (_data r) (_type r) v (headers r) (method r) (timeout r)
    (useXHR r) (cors r) (credentials r) (parse r) (xhr r)
    (fetchTimeoutTimer r).

Definition assign_headers (v : gmap string string) (r : Request) : Request :=
  mkRequest (_url r) (_data r) (_type r) (_dataType r) v (method r)
    (timeout r) (useXHR r) (cors r) (credentials r) (parse r) (xhr r)
    (fetchTimeoutTimer r).

Definition assign_method (v : RequestMethod) (r : Request) : Request :=
  mkRequest (_url r) (_data r) (_type r) (_dataType r) (headers r) v
    (timeout r) (useXHR r) (cors r) (credentials r) (parse r) (xhr r)
    (fetchTimeoutTimer r).

Definition assign_timeout (v : Z) (r : Request) : Request :=
  mkRequest (_url r) (_data r) (_type r) (_dataType r) (headers r) (method r)
    v (useXHR r) (cors r) (credentials r) (parse r) (xhr r)
    (fetchTimeoutTimer r).

Definition assign_useXHR (v : bool) (r : Request) : Request :=
  mkRequest (_url r) (_data r) (_type r) (_dataType r) (headers r) (method r)
    (timeout r) v (cors r) (credentials r) (parse r) (xhr r)
    (fetchTimeoutTimer r).

Definition assign_cors (v : bool) (r : Request) : Request :=
  mkRequest (_url r) (_data r) (_type r) (_dataType r) (headers r) (method r)
    (timeout r) (useXHR r) v (credentials r) (parse r) (xhr r)
    (fetchTimeoutTimer r).

Definition assign_credentials (v : bool) (r : Request) : Request :=
  mkRequest (_url r) (_data r) (_type r) (_dataType r) (headers r) (method r)
    (timeout r) (useXHR r) (cors r) v (parse r) (xhr r) (fetchTimeoutTimer r).

Definition assign_parse (v : option ParseFunction) (r : Request) : Request :=
  mkRequest (_url r) (_data r) (_type r) (_dataType r) (headers r) (method r)
    (timeout r) (useXHR r) (cors r) (credentials r) v (xhr r)
    (fetchTimeoutTimer r).

Definition assign_xhr (v : option XHR.t) (r : Request) : Request :=
  mkRequest (_url r) (_data r) (_type r) (_dataType r) (headers r) (method r)
    (timeout r) (useXHR r) (cors r) (credentials r) (parse r) v
    (fetchTimeoutTimer r).

Definition assign_fetchTimeoutTimer (v : Z) (r : Request) : Request :=
  mkRequest (_url r) (_data r) (_type r) (_dataType r) (headers r) (method r)
    (timeout r) (useXHR r) (cors r) (credentials r) (parse r) (xhr r) v.

(** The field initialisers of the class. *)
Definition Request_fields : Request :=
  {| _url := "";
     _data := JNull;
     _type := RequestType.json;
     _dataType := RequestDataType.json;
     headers := <["Content-Type" := contentTypes RequestType.json]>
                  (<["Accept" := contentTypes RequestType.json]> ∅);
     method := GET;
     timeout := 0;
     useXHR := false;
     cors := false;
     credentials := false;
     parse := None;
     xhr := None;
     fetchTimeoutTimer := 0 |}.

Definition setHeader (key val : string) (r : Request) : Request :=
  assign_headers (<[key := val]> (headers r)) r.

Definition removeHeader (key : string) (r : Request) : Request :=
  assign_headers (delete key (headers r)) r.

(** [set contentType(val)] *)
Definition set_contentType (val : RequestContentType) (r : Request) : Request :=
  match val with
  | ContentTypeFalse => removeHeader "Content-Type" r
  | ContentTypeIs s => setHeader "Content-Type" s r
  end.

(** [set type(val)] *)
Definition set_type (val : RequestType.t) (r : Request) : Request :=
  let r := assign_type val r in
  match val with
  | RequestType.form => set_contentType ContentTypeFalse r
  | _ => set_contentType (ContentTypeIs (contentTypes val)) r
  end.

(** [set dataType(val)] *)
Definition set_dataType (val : RequestDataType.t) (r : Request) : Request :=
  let r := assign_dataType val r in
  let accept := contentTypes (RequestDataType.key val) in
  setHeader "Accept" (if String.eqb accept "" then "*/*" else accept) r.

Definition isQuery (r : Request) : bool :=
  match method r with
  | GET | HEAD => true
  | _ => false
  end.

(** The settings [requestByFetchApi] passes to [window.fetch]. *)
Module RequestInit.
Record t : Type := mk {
  body : JsVal;
  method : RequestMethod;
  headers : gmap string string;
  credentials : option string;
  mode : option string;
  cache : string
}.
End RequestInit.

(** The candidates [requestByFetchApi] races. *)
Inductive FetchTask : Type :=
| TimeoutTask (ms : Z)
| AbortTask
| NetworkTask (url : string) (settings : RequestInit.t).

(** What can happen first to a call on the fetch transport. *)
Inductive FetchEvent : Type :=
| NetworkResponds (res : Response.t)
| NetworkFails (err : JsError)
| TimerFires
| AbortCalled.

(** What the browser can deliver to the [XMLHttpRequest] of a call; a load
    comes with the state of the completed operation. *)
Inductive XhrEvent : Type :=
| LoadEvent (readyState status : Z) (statusText responseText : string)
| ErrorEvent
| AbortEvent
| TimeoutEvent.

(** A call on the legacy transport: the request, the promise
    [requestByXHR] returned, and the exception that escaped a handler. *)
Record XhrCall : Type := mkXhrCall {
  this : Request;
  promise : Outcome;
  uncaught : option JsError
}.

(** What the network does to one call: the first thing to happen on the
    fetch transport, the events delivered on the legacy one. *)
Record Network : Type := mkNetwork {
  fetch_first : option FetchEvent;
  xhr_events : list XhrEvent
}.

(** [function defaultParseResponse(result)] *)
Definition defaultParseResponse (result : JsVal) : Completion JsVal :=
  let* has_success := hasOwnProperty result "success" in
  let* has_data := (if has_success then hasOwnProperty result "data" else Normal false) in
  if has_success && has_data then
    let responseData := result in
    let* statusCode := get_prop responseData "statusCode" in
    let* responseData :=
      (if negb (truthy statusCode)
       then set_prop responseData "statusCode" (JNum REQUEST_SUCCESS_STATUS)
       else Normal responseData) in
    let* errorCode := get_prop responseData "errorCode" in
    let* responseData :=
      (if negb (truthy errorCode)
       then set_prop responseData "errorCode" (JNum 0)
       else Normal responseData) in
    let* errorMessage := get_prop responseData "errorMessage" in
    let* responseData :=
      (match errorMessage with
       | JUndefined => set_prop responseData "errorMessage" JNull
       | _ => Normal responseData
       end) in
    let* errorStack := get_prop responseData "errorStack" in
    let* responseData :=
      (match errorStack with
       | JUndefined => set_prop responseData "errorStack" JNull
       | _ => Normal responseData
       end) in
    Normal responseData
  else
    Normal (JObj [("success", JBool true);
                  ("statusCode", JNum REQUEST_SUCCESS_STATUS);
                  ("errorCode", JNum 0);
                  ("errorMessage", JNull);
                  ("errorStack", JNull);
                  ("data", result)]).

(** ** A small runtime for running the model

    The built-ins of the browser are parameters of the model (see the
    section below).  To run it on concrete inputs they are instantiated
    with the following: a [JSON.parse] that knows a handful of texts and
    throws on every other one, a [JSON.stringify] and a [qs.stringify] for
    flat values, a page served from [localhost], and a few option
    objects. *)

Definition dquote : string := String (ascii_of_nat 34) EmptyString.

Definition quoted (s : string) : string := dquote ++ s ++ dquote.

(** The text of an object with an [errormsg] of [boom] and an [errorcode]
    of [E42]. *)
Definition demo_error_text : string :=
  "{" ++ quoted "errormsg" ++ ":" ++ quoted "boom" ++ ","
      ++ quoted "errorcode" ++ ":" ++ quoted "E42" ++ "}".

Definition demo_JSON_parse (text : string) : option JsVal :=
  if String.eqb text "{}" then Some (JObj [])
  else if String.eqb text "null" then Some JNull
  else if String.eqb text "[1]" then Some (JArr [JNum 1])
  else if String.eqb text demo_error_text
       then Some (JObj [("errormsg", JStr "boom"); ("errorcode", JStr "E42")])
  else None.

Definition demo_show (v : JsVal) : string :=
  match js_to_string v with
  | Normal s => s
  | Throw _ => ""
  end.

Definition demo_JSON_stringify (v : JsVal) : string :=
  match v with
  | JStr s => quoted s
  | JObj [] => "{}"
  | JObj ((k, x) :: _) => "{" ++ quoted k ++ ":" ++ demo_show x ++ "}"
  | JArr items => "[" ++ demo_show v ++ "]"
  | _ => demo_show v
  end.

Definition demo_qs_stringify (v : JsVal) : string :=
  match v with
  | JObj props =>
      String.concat "&" (map (fun kv => fst kv ++ "=" ++ demo_show (snd kv)) props)
  | _ => ""
  end.

Definition demo_window : Window.t :=
  {| Window.hostname := "localhost"; Window.has_fetch := true; Window.timer_handle := 1 |}.

Definition demo_xhr_options : RequestOptions.t :=
  RequestOptions.mk None None None None None None (Some true) None None.

Definition demo_form_options (h : option (gmap string string))
    (c : option RequestContentType) : RequestOptions.t :=
  RequestOptions.mk (Some POST) h (Some RequestType.form) None c None None None None.

Definition demo_negative_timeout : RequestOptions.t :=
  RequestOptions.mk None None None None None (Some (-2000)) None None None.

Definition demo_timeout_options : RequestOptions.t :=
  RequestOptions.mk None None None None None (Some 2000) None None None.

Definition demo_text_options : RequestOptions.t :=
  RequestOptions.mk None None None (Some RequestDataType.text) None None None None None.


Definition demo_failure_body : list (string * JsVal) :=
  [("success", JBool false); ("statusCode", JNum 500); ("errorCode", JNum 500);
   ("errorMessage", JStr "Internal Server Error"); ("data", JNull)].

(** ** The methods of the class

    The built-ins the class calls are the section's variables:
    [JSON.parse] throws on a text that is not JSON ([None]),
    [JSON.stringify] and [qs.stringify] (package [@billjs/query-string])
    serialise a value, [window] is the page, and [responseParseFunction]
    is the module variable the exported [parseResponse] sets. *)

Section RequestClass.

Variable JSON_parse : string -> option JsVal.
Variable JSON_stringify : JsVal -> string.
Variable qs_stringify : JsVal -> string.
Variable window : Window.t.
Variable responseParseFunction : option ParseFunction.

(** [resolveURL(url, data)] *)
Definition resolveURL (r : Request) (url : string) (data : JsVal) : string :=
  if isQuery r && truthy data then
    let data := match data with
                | JStr s => s
                | _ => qs_stringify data
                end in
    url ++ (if starts_with_question data then data else "?" ++ data)
  else url.

(** [set url(val)] *)
Definition set_url (val : string) (r : Request) : Request :=
  let r := assign_url val r in
  match ABSOLUTE_PATH_REG val with
  | Some domain =>
      if negb (String.eqb domain (Window.hostname window))
      then assign_cors true r
      else r
  | None => r
  end.

(** [set data(val)] *)
Definition set_data (val : JsVal) (r : Request) : Request :=
  if isQuery r || is_nullish val then assign_data JNull r
  else
    match _type r with
    | RequestType.json => assign_data (JStr (JSON_stringify val)) r
    | RequestType.urlencoded => assign_data (JStr (qs_stringify val)) r
    | _ => assign_data val r
    end.

(** [if (o !== void 0) f(o)], the guard of the constructor's option lines;
    a method, a type, a data type and a parser are truthy when present. *)
Definition when {A : Type} (o : option A) (f : A -> Request -> Request)
    (r : Request) : Request :=
  match o with
  | Some a => f a r
  | None => r
  end.

(** [constructor(url, data, options)] *)
Definition new_Request (url : string) (data : JsVal) (options : RequestOptions.t)
  : Request :=
  let r := Request_fields in
  let r := when (RequestOptions.method options) assign_method r in
  let r := when (RequestOptions.type options) set_type r in
  let r := when (RequestOptions.dataType options) set_dataType r in
  let r := when (RequestOptions.contentType options) set_contentType r in
  let r := when (RequestOptions.timeout options)
                (fun t => assign_timeout (Z.max 0 t)) r in
  let r := when (RequestOptions.useXHR options) assign_useXHR r in
  let r := when (RequestOptions.credentials options) assign_credentials r in
  let r := when (RequestOptions.parse options) (fun f => assign_parse (Some f)) r in
  let r := set_url (resolveURL r url data) r in
  let r := set_data data r in
  let r := if negb (cors r) then assign_credentials true r else r in
  let r := when (RequestOptions.headers options)
                (fun h r => assign_headers (h ∪ headers r) r) r in
  r.

(** [parseResponse(result)]: the outcome is the value returned or the
    error thrown. *)
Definition parseResponse (r : Request) (result : JsVal) : Completion JsVal :=
  match _dataType r with
  | RequestDataType.json =>
      let parse := match parse r with
                   | Some f => f
                   | None =>
                       match responseParseFunction with
                       | Some g => g
                       | None => defaultParseResponse
                       end
                   end in
      let* responseData := parse result in
      let* success := get_prop responseData "success" in
      if negb (truthy success) then
        let* statusCode := get_prop responseData "statusCode" in
        let* errorCode := get_prop responseData "errorCode" in
        let* code := js_to_string errorCode in
        let* errorMessage := get_prop responseData "errorMessage" in
        let* errorStack := get_prop responseData "errorStack" in
        let* err := new_RequestError
                      statusCode
                      (JStr ("" ++ code))
                      (js_or errorMessage (JStr REQUEST_ERROR_MSG))
                      errorStack in
        Throw (ReqError err)
      else get_prop responseData "data"
  | RequestDataType.text => Normal result
  end.

(** [try { resolve(...) } catch (err) { reject(err) }] *)
Definition resolve_or_reject (c : Completion JsVal) : Outcome :=
  match c with
  | Normal v => Resolved v
  | Throw e => Rejected e
  end.

(** The status test both load handlers make. *)
Definition status_is_exceptional (status : Z) : bool :=
  (status <? REQUEST_SUCCESS_STATUS)
  || ((REQUEST_300_STATUS <=? status) && negb (status =? REQUEST_CACHE_STATUS)).

(** *** The fetch transport *)

Definition finallyFetch (r : Request) : Request :=
  if negb (fetchTimeoutTimer r =? 0) then assign_fetchTimeoutTimer 0 r else r.

(** [parseFetchJSONData], [parseFetchTextData] and [parseFetchData]: the
    promise they return always resolves. *)
Definition parseFetchJSONData (res : Response.t) : JsVal :=
  match Response.json res with
  | Some v => v
  | None => JObj []
  end.

Definition parseFetchTextData (res : Response.t) : JsVal :=
  match Response.text res with
  | Some s => JStr s
  | None => JStr ""
  end.

Definition parseFetchData (r : Request) (res : Response.t) : JsVal :=
  match _dataType r with
  | RequestDataType.json => parseFetchJSONData res
  | RequestDataType.text => parseFetchTextData res
  end.

(** [onFetchLoad(res)]: an exception thrown in the [then] callback rejects
    through the trailing [.catch(reject)]. *)
Definition onFetchLoad (r : Request) (res : Response.t) : Request * Outcome :=
  let r := finallyFetch r in
  let status := Response.status res in
  let result := parseFetchData r res in
  let settled : Completion Outcome :=
    if status_is_exceptional status then
      let* errormsg := get_prop result "errormsg" in
      let msg := js_or (js_or errormsg (JStr (Response.statusText res)))
                       (JStr REQUEST_ERROR_MSG) in
      let* errorcode := get_prop result "errorcode" in
      let* err := new_RequestError
                    (JNum status)
                    (js_or errorcode (JStr ("" ++ pretty status)))
                    msg
                    JUndefined in
      Normal (Rejected (ReqError err))
    else Normal (resolve_or_reject (parseResponse r result)) in
  match settled with
  | Normal o => (r, o)
  | Throw e => (r, Rejected e)
  end.

Definition onFetchError (r : Request) (err : JsError) : Request * Outcome :=
  (finallyFetch r, Rejected err).

(** The rejection of [createFetchAbort]'s [abort]. *)
Definition fetchAbort (r : Request) : Request * Outcome :=
  match new_RequestError (JNum REQUEST_ABORT_STATUS) (JStr REQUEST_ABORT_CODE)
                         (JStr REQUEST_ABORT_MSG) JUndefined with
  | Normal err => (finallyFetch r, Rejected (ReqError err))
  | Throw _ => (r, Unsettled)
  end.

(** [createFetchTimeout()]: the timer is started and its handle kept. *)
Definition createFetchTimeout (r : Request) : Request * FetchTask :=
  (assign_fetchTimeoutTimer (Window.timer_handle window) r, TimeoutTask (timeout r)).

(** The callback of that timer. *)
Definition fetchTimeout (r : Request) : Request * Outcome :=
  match new_RequestError (JNum REQUEST_TIMEOUT_STATUS) (JStr REQUEST_TIMEOUT_CODE)
                         (JStr REQUEST_TIMEOUT_MSG) JUndefined with
  | Normal err => (finallyFetch r, Rejected (ReqError err))
  | Throw _ => (r, Unsettled)
  end.

Definition fetchSettings (r : Request) : RequestInit.t :=
  {| RequestInit.body := if negb (is_nullish (_data r)) then _data r else JUndefined;
     RequestInit.method := method r;
     RequestInit.headers := headers r;
     RequestInit.credentials := if credentials r then Some "include" else None;
     RequestInit.mode := if cors r then Some "cors" else None;
     RequestInit.cache := "default" |}.

(** The [tasks] array of [requestByFetchApi]. *)
Definition fetchTasks (r : Request) : Request * list FetchTask :=
  let settings := fetchSettings r in
  let tasks : list FetchTask := [] in
  let '(r, tasks) :=
    if 0 <? timeout r
    then let '(r', t) := createFetchTimeout r in (r', (tasks ++ [t])%list)
    else (r, tasks) in
  let tasks := (tasks ++ [AbortTask])%list in
  let tasks := (tasks ++ [NetworkTask (_url r) settings])%list in
  (r, tasks).

(** Whether an event is the settlement of a task. *)
Definition settles (ev : FetchEvent) (t : FetchTask) : bool :=
  match ev, t with
  | TimerFires, TimeoutTask _ => true
  | AbortCalled, AbortTask => true
  | NetworkResponds _, NetworkTask _ _ => true
  | NetworkFails _, NetworkTask _ _ => true
  | _, _ => false
  end.

(** [Promise.race(tasks)]: the race settles with the first of its tasks to
    settle; an event with no task in the race settles nothing. *)
Definition Promise_race (r : Request) (tasks : list FetchTask)
    (first : option FetchEvent) : Request * Outcome :=
  match first with
  | None => (r, Unsettled)
  | Some ev =>
      if existsb (settles ev) tasks then
        match ev with
        | NetworkResponds res => onFetchLoad r res
        | NetworkFails err => onFetchError r err
        | TimerFires => fetchTimeout r
        | AbortCalled => fetchAbort r
        end
      else (r, Unsettled)
  end.

Definition requestByFetchApi (r : Request) (first : option FetchEvent)
  : Request * Outcome :=
  let '(r, tasks) := fetchTasks r in
  Promise_race r tasks first.

(** *** The legacy transport *)

(** [finallyXHR()]: the progress listener is removed, the four handlers
    are set to [null] and [this.xhr] is released. *)
Definition finallyXHR (r : Request) : Request :=
  match xhr r with
  | None => r
  | Some _ => assign_xhr None r
  end.

(** The closure [onXHRLoad(resolve, reject)] returns.  An exception that
    leaves it is not caught by anything: the promise stays as it was. *)
Definition onXHRLoad (c : XhrCall) : XhrCall :=
  match xhr (this c) with
  | None => c
  | Some x =>
      if XHR.readyState x =? 4 then
        let this' := finallyXHR (this c) in
        let settled : Completion Outcome :=
          let text := XHR.responseText x in
          let* result :=
            (match _dataType this' with
             | RequestDataType.json =>
                 if negb (String.eqb text "") then
                   match JSON_parse text with
                   | Some v => Normal v
                   | None => Throw SyntaxError
                   end
                 else Normal (JObj [])
             | RequestDataType.text => Normal (JStr text)
             end) in
          let status := XHR.status x in
          if status_is_exceptional status then
            let* errormsg := get_prop result "errormsg" in
            let msg := js_or (js_or errormsg (JStr (XHR.statusText x)))
                             (JStr REQUEST_ERROR_MSG) in
            let* errorcode := get_prop result "errorcode" in
            let* err := new_RequestError
                          (JNum status)
                          (js_or errorcode (JStr ("" ++ pretty status)))
                          msg
                          JUndefined in
            Normal (Rejected (ReqError err))
          else Normal (resolve_or_reject (parseResponse this' result)) in
        match settled with
        | Normal o => mkXhrCall this' (settle (promise c) o) (uncaught c)
        | Throw e => mkXhrCall this' (promise c) (Some e)
        end
      else c
  end.

Definition onXHRError (c : XhrCall) : XhrCall :=
  match new_RequestError (JNum REQUEST_ERROR_STATUS) (JStr REQUEST_ERROR_CODE)
                         (JStr REQUEST_ERROR_MSG) JUndefined with
  | Normal err =>
      mkXhrCall (finallyXHR (this c)) (settle (promise c) (Rejected (ReqError err)))
                (uncaught c)
  | Throw e => mkXhrCall (this c) (promise c) (Some e)
  end.

Definition onXHRAbort (c : XhrCall) : XhrCall :=
  match new_RequestError (JNum REQUEST_ABORT_STATUS) (JStr REQUEST_ABORT_CODE)
                         (JStr REQUEST_ABORT_MSG) JUndefined with
  | Normal err =>
      mkXhrCall (finallyXHR (this c)) (settle (promise c) (Rejected (ReqError err)))
                (uncaught c)
  | Throw e => mkXhrCall (this c) (promise c) (Some e)
  end.

Definition onXHRTimeout (c : XhrCall) : XhrCall :=
  match new_RequestError (JNum REQUEST_TIMEOUT_STATUS) (JStr REQUEST_TIMEOUT_CODE)
                         (JStr REQUEST_TIMEOUT_MSG) JUndefined with
  | Normal err =>
      mkXhrCall (finallyXHR (this c)) (settle (promise c) (Rejected (ReqError err)))
                (uncaught c)
  | Throw e => mkXhrCall (this c) (promise c) (Some e)
  end.

(** [requestByXHR()]: the object is created, configured and sent, and the
    handlers are installed; the timeout and its handler only when
    [this.timeout > 0]. *)
Definition requestByXHR (r : Request) : XhrCall :=
  let x :=
    {| XHR.withCredentials := credentials r;
       XHR.opened := Some (method r, _url r);
       XHR.requestHeaders := headers r;
       XHR.timeout := if 0 <? timeout r then timeout r else XHR.timeout XHR.fresh;
       XHR.onerror := true;
       XHR.onabort := true;
       XHR.ontimeout := if 0 <? timeout r then true else XHR.ontimeout XHR.fresh;
       XHR.onload := true;
       XHR.progressListener := true;
       XHR.sent := Some (_data r);
       XHR.readyState := XHR.readyState XHR.fresh;
       XHR.status := XHR.status XHR.fresh;
       XHR.statusText := XHR.statusText XHR.fresh;
       XHR.responseText := XHR.responseText XHR.fresh |} in
  mkXhrCall (assign_xhr (Some x) r) Unsettled None.

(** The browser delivers an event to the handler in its slot, if there is
    one; once the object is released no slot holds a handler. *)
Definition dispatchEvent (ev : XhrEvent) (c : XhrCall) : XhrCall :=
  match xhr (this c) with
  | None => c
  | Some x =>
      match ev with
      | LoadEvent readyState status statusText responseText =>
          let c' := mkXhrCall
                      (assign_xhr
                         (Some (XHR.complete readyState status statusText responseText x))
                         (this c))
                      (promise c) (uncaught c) in
          if XHR.onload x then onXHRLoad c' else c'
      | ErrorEvent => if XHR.onerror x then onXHRError c else c
      | AbortEvent => if XHR.onabort x then onXHRAbort c else c
      | TimeoutEvent => if XHR.ontimeout x then onXHRTimeout c else c
      end
  end.

Definition runXHR (r : Request) (events : list XhrEvent) : XhrCall :=
  fold_left (fun c ev => dispatchEvent ev c) events (requestByXHR r).

(** [request()] *)
Definition request (r : Request) (net : Network) : Request * Outcome :=
  if Window.has_fetch window && negb (useXHR r)
  then requestByFetchApi r (fetch_first net)
  else let c := runXHR r (xhr_events net) in (this c, promise c).

(** ** The exported entry points *)

(** A call of [eventEmitter.fire(type, payload)].  The emitter (package
    [@billjs/event-emitter]) is used through [fire] alone, which delivers
    the notification to the observers. *)
Inductive Notification : Type :=
| OnSuccess (data : JsVal) (req : Request)
| OnError (error : JsError) (req : Request)
| OnComplete (error : option JsError) (data : JsVal) (req : Request).

Definition event_type (n : Notification) : string :=
  match n with
  | OnSuccess _ _ => "success"
  | OnError _ _ => "error"
  | OnComplete _ _ _ => "complete"
  end.

(** A promise together with the notifications fired so far. *)
Definition Notified : Type := list Notification * Outcome.

(** The body of a [then] or [catch] callback: what it fires, then what it
    returns or throws. *)
Definition Callback : Type := list Notification * Completion JsVal.

(** The observers registered with the emitter, as [fire] sees them: it
    calls them in turn and catches nothing, so it either returns or throws
    what an observer threw, and the rest of the callback is not run. *)
Variable observers : Notification -> option JsError.

Definition fire (n : Notification) (rest : Callback) : Callback :=
  match observers n with
  | None => (n :: fst rest, snd rest)
  | Some e => ([n], Throw e)
  end.

(** [p.then(f)] and [p.catch(g)]: the callback runs on the matching
    settlement and its completion settles the new promise; any other
    state passes through. *)
Definition promise_then (p : Notified) (f : JsVal -> Callback) : Notified :=
  match p with
  | (fired, Resolved v) =>
      let '(more, c) := f v in ((fired ++ more)%list, resolve_or_reject c)
  | _ => p
  end.

Definition promise_catch (p : Notified) (g : JsError -> Callback) : Notified :=
  match p with
  | (fired, Rejected e) =>
      let '(more, c) := g e in ((fired ++ more)%list, resolve_or_reject c)
  | _ => p
  end.

Definition fetch (url : string) (data : JsVal) (options : RequestOptions.t)
    (net : Network) : Notified :=
  let req := new_Request url data options in
  promise_catch
    (promise_then ([], snd (request req net))
       (fun data =>
          fire (OnSuccess data req)
            (fire (OnComplete None data req)
               ([], Normal data))))
    (fun error =>
       fire (OnError error req)
         (fire (OnComplete (Some error) JNull req)
            ([], Throw error))).

(** The verb entries write to the options object they are given and pass
    it on: each returns that object as the call leaves it, with the
    promise. *)
Definition get (url : string) (data : JsVal) (options : RequestOptions.t)
    (net : Network) : RequestOptions.t * Notified :=
  let options := RequestOptions.set_method GET options in
  (options, fetch url data options net).

Definition head (url : string) (data : JsVal) (options : RequestOptions.t)
    (net : Network) : RequestOptions.t * Notified :=
  let options := RequestOptions.set_method HEAD options in
  (options, fetch url data options net).

Definition post (url : string) (data : JsVal) (options : RequestOptions.t)
    (net : Network) : RequestOptions.t * Notified :=
  let options := RequestOptions.set_method POST options in
  (options, fetch url data options net).

Definition put (url : string) (data : JsVal) (options : RequestOptions.t)
    (net : Network) : RequestOptions.t * Notified :=
  let options := RequestOptions.set_method PUT options in
  (options, fetch url data options net).

Definition patch (url : string) (data : JsVal) (options : RequestOptions.t)
    (net : Network) : RequestOptions.t * Notified :=
  let options := RequestOptions.set_method PATCH options in
  (options, fetch url data options net).

Definition del (url : string) (data : JsVal) (options : RequestOptions.t)
    (net : Network) : RequestOptions.t * Notified :=
  let options := RequestOptions.set_method DELETE options in
  (options, fetch url data options net).

Definition options (url : string) (options : RequestOptions.t)
    (net : Network) : RequestOptions.t * Notified :=
  let options := RequestOptions.set_method OPTIONS options in
  (options, fetch url JNull options net).

Definition upload (url : string) (data : JsVal) (options : RequestOptions.t)
    (net : Network) : RequestOptions.t * Notified :=
  let options := RequestOptions.set_type RequestType.form options in
  post url data options net.

(** ** Vocabulary of the properties

    What the setters do to the headers, what the constructor derives from
    the options, and the readings of a response the statements below
    use. *)

(** [set contentType]: the given string, or no [Content-Type] for [false]. *)
Definition contentType_in (c : RequestContentType) (h : gmap string string)
  : gmap string string :=
  match c with
  | ContentTypeFalse => delete "Content-Type" h
  | ContentTypeIs s => <["Content-Type" := s]> h
  end.

(** [set type]: the table entry, or no [Content-Type] for [form]. *)
Definition type_in (ty : RequestType.t) (h : gmap string string)
  : gmap string string :=
  match ty with
  | RequestType.form => delete "Content-Type" h
  | _ => <["Content-Type" := contentTypes ty]> h
  end.

(** [set dataType]: the [Accept] header of the data type. *)
Definition dataType_in (d : RequestDataType.t) (h : gmap string string)
  : gmap string string :=
  <["Accept" := contentTypes (RequestDataType.key d)]> h.

(** The headers the constructor derives from the options before it merges
    the caller's. *)
Definition derived_headers (o : RequestOptions.t) : gmap string string :=
  let h := headers Request_fields in
  let h := from_option (fun ty => type_in ty h) h (RequestOptions.type o) in
  let h := from_option (fun d => dataType_in d h) h (RequestOptions.dataType o) in
  from_option (fun c => contentType_in c h) h (RequestOptions.contentType o).

(** Whether [set url] finds the URL to be cross-origin. *)
Definition crosses_origin (val : string) : bool :=
  match ABSOLUTE_PATH_REG val with
  | Some domain => negb (String.eqb domain (Window.hostname window))
  | None => false
  end.

(** The body [set data] stores. *)
Definition body_of (r : Request) (val : JsVal) : JsVal :=
  if isQuery r || is_nullish val then JNull
  else
    match _type r with
    | RequestType.json => JStr (JSON_stringify val)
    | RequestType.urlencoded => JStr (qs_stringify val)
    | _ => val
    end.

(** The [complete] notifications of a log. *)
Definition is_complete (n : Notification) : bool :=
  String.eqb (event_type n) "complete".

(** The timeout candidate of a race. *)
Definition is_timeout_task (t : FetchTask) : bool :=
  match t with
  | TimeoutTask _ => true
  | _ => false
  end.

(** [v.k] where the access cannot throw. *)
Definition member (v : JsVal) (k : string) : JsVal :=
  match get_prop v k with
  | Normal x => x
  | Throw _ => JUndefined
  end.

(** The failure both load handlers build for an exceptional status, when
    the message they choose converts to the string [m]. *)
Definition status_failure (status : Z) (body : JsVal) (m : string)
  : RequestError.t :=
  {| RequestError.status := JNum status;
     RequestError.code := js_or (member body "errorcode") (JStr (pretty status));
     RequestError.message := m;
     RequestError.stack := None |}.

(** The message the handlers choose, [errormsg || statusText || generic],
    as a string. *)
Definition chosen_message (statusText : string) (body : JsVal) (m : string)
  : string :=
  if truthy (member body "errormsg") then m
  else if negb (String.eqb statusText "") then statusText
  else REQUEST_ERROR_MSG.

(** What the legacy load handler makes of the response text. *)
Definition xhr_body (r : Request) (text : string) (body : JsVal) : Prop :=
  match _dataType r with
  | RequestDataType.json =>
      (text = "" /\ body = JObj []) \/ (text <> "" /\ JSON_parse text = Some body)
  | RequestDataType.text => body = JStr text
  end.

(** [if (missing(o.k)) o.k = v] on the properties of an object. *)
Definition fill (k : string) (missing : JsVal -> bool) (v : JsVal)
    (props : list (string * JsVal)) : list (string * JsVal) :=
  if missing (default JUndefined (assoc_get k props)) then assoc_set k v props
  else props.

(** [!v] and [v === void 0], the two tests [defaultParseResponse] makes. *)
Definition falsy (v : JsVal) : bool := negb (truthy v).

Definition is_undefined (v : JsVal) : bool :=
  match v with
  | JUndefined => true
  | _ => false
  end.

(** ** Vocabulary of the further properties *)

(** Whether [s] begins with the literal [p], letter case apart. *)
Definition has_prefix_i (p s : string) : bool :=
  match match_literal_i p s with
  | Some _ => true
  | None => false
  end.

(** The prefixes the absolute-URL pattern accepts. *)
Definition has_absolute_prefix (s : string) : bool :=
  has_prefix_i "//" s || has_prefix_i "http://" s || has_prefix_i "https://" s.

(** The [Content-Type] and [Accept] the constructor derives when the
    caller's headers do not name them. *)
Definition derived_content_type (o : RequestOptions.t) : option string :=
  match RequestOptions.contentType o with
  | Some (ContentTypeIs s) => Some s
  | Some ContentTypeFalse => None
  | None =>
      match default RequestType.json (RequestOptions.type o) with
      | RequestType.form => None
      | ty => Some (contentTypes ty)
      end
  end.

Definition derived_accept (o : RequestOptions.t) : string :=
  contentTypes (RequestDataType.key
                  (default RequestDataType.json (RequestOptions.dataType o))).

(** The three fixed failures of the transports. *)
Definition timeout_failure : Outcome :=
  Rejected (ReqError {| RequestError.status := JNum 504;
                        RequestError.code := JStr "1001";
                        RequestError.message := "Request Timeout";
                        RequestError.stack := None |}).

Definition abort_failure : Outcome :=
  Rejected (ReqError {| RequestError.status := JNum 400;
                        RequestError.code := JStr "1002";
                        RequestError.message := "Request Aborted";
                        RequestError.stack := None |}).

(** A legacy call with the response fields of its operation blanked: what
    is left is everything the handlers other than [load] can read. *)
Definition forget_response (c : XhrCall) : XhrCall :=
  mkXhrCall
    (assign_xhr (XHR.complete 0 0 "" "" <$> xhr (this c)) (this c))
    (promise c) (uncaught c).

(** A sequence of calls through the generic entry, and what the shared
    emitter is asked to fire for them, call after call. *)
Record Call : Type := mkCall {
  call_url : string;
  call_data : JsVal;
  call_options : RequestOptions.t;
  call_network : Network
}.

Definition fetch_call (c : Call) : Notified :=
  fetch (call_url c) (call_data c) (call_options c) (call_network c).

Definition fired_by (calls : list Call) : list Notification :=
  concat (map (fun c => fst (fetch_call c)) calls).

Definition count_fired (type : string) (log : list Notification) : nat :=
  length (List.filter (fun n => String.eqb (event_type n) type) log).

Definition is_resolved (p : Notified) : bool :=
  match snd p with
  | Resolved _ => true
  | _ => false
  end.

Definition is_rejected (p : Notified) : bool :=
  match snd p with
  | Rejected _ => true
  | _ => false
  end.

(** The shape of a standard response: both contract members, a truthy
    status code, an error code that is truthy or 0, and the two error
    texts defined. *)
Definition standard_response (props : list (string * JsVal)) : Prop :=
  assoc_get "hasOwnProperty" props = None
  /\ is_Some (assoc_get "success" props)
  /\ is_Some (assoc_get "data" props)
  /\ (exists sc, assoc_get "statusCode" props = Some sc /\ truthy sc = true)
  /\ (exists ec, assoc_get "errorCode" props = Some ec
                 /\ (truthy ec = true \/ ec = JNum 0))
  /\ (exists em, assoc_get "errorMessage" props = Some em /\ em <> JUndefined)
  /\ (exists es, assoc_get "errorStack" props = Some es /\ es <> JUndefined).

(** Whether no character of the literal [p] is [c], letter case apart. *)
Fixpoint avoids (c : ascii) (p : string) : bool :=
  match p with
  | EmptyString => true
  | String a p' => negb (Ascii.eqb (to_lower a) (to_lower c)) && avoids c p'
  end.

(** A call that has a parser of its own, or that asks for text. *)
Definition shadows_global (r : Request) : Prop :=
  parse r <> None \/ _dataType r = RequestDataType.text.

(** What a verb entry leaves of the options object: every member but
    [method] and [type]. *)
Definition other_members_kept (o o' : RequestOptions.t) : Prop :=
  RequestOptions.headers o' = RequestOptions.headers o
  /\ RequestOptions.dataType o' = RequestOptions.dataType o
  /\ RequestOptions.contentType o' = RequestOptions.contentType o
  /\ RequestOptions.timeout o' = RequestOptions.timeout o
  /\ RequestOptions.useXHR o' = RequestOptions.useXHR o
  /\ RequestOptions.credentials o' = RequestOptions.credentials o
  /\ RequestOptions.parse o' = RequestOptions.parse o.

(** The object after an entry that writes [m] to [method] and nothing
    else. *)
Definition only_method_written (m : RequestMethod) (o o' : RequestOptions.t) : Prop :=
  RequestOptions.method o' = Some m
  /\ RequestOptions.type o' = RequestOptions.type o
  /\ other_members_kept o o'.

(** * Properties *)

Ltac break_match :=
  match goal with
  | |- context [match ?x with _ => _ end] => destruct x eqn:?
  end.

(** ** The setters, as field assignments

    Each setter of the class changes a few fields and leaves the others
    alone.  Written as plain assignments they let every field of a
    constructed request be computed. *)

Lemma set_contentType_eq c r :
  set_contentType c r = assign_headers (contentType_in c (headers r)) r.
Proof. destruct c; reflexivity. Qed.

Lemma set_type_eq ty r :
  set_type ty r = assign_headers (type_in ty (headers r)) (assign_type ty r).
Proof. destruct ty; reflexivity. Qed.

Lemma set_dataType_eq d r :
  set_dataType d r = assign_headers (dataType_in d (headers r)) (assign_dataType d r).
Proof. destruct d; reflexivity. Qed.

Lemma set_url_eq val r :
  set_url val r = assign_cors (cors r || crosses_origin val) (assign_url val r).
Proof.
  unfold set_url, crosses_origin.
  destruct r, (ABSOLUTE_PATH_REG val) as [d|]; cbn;
    [destruct (String.eqb d (Window.hostname window)); cbn|];
    rewrite ?orb_true_r, ?orb_false_r; reflexivity.
Qed.

Lemma set_data_eq val r : set_data val r = assign_data (body_of r val) r.
Proof. unfold set_data, body_of. repeat break_match; reflexivity. Qed.

Lemma force_credentials_eq r :
  (if negb (cors r) then assign_credentials true r else r)
  = assign_credentials (negb (cors r) || credentials r) r.
Proof. destruct r as [? ? ? ? ? ? ? ? [] ? ? ? ?]; reflexivity. Qed.

(** The guarded option lines of the constructor. *)
Lemma when_method o r :
  when o assign_method r = assign_method (default (method r) o) r.
Proof. destruct o, r; reflexivity. Qed.

Lemma when_type o r :
  when o set_type r
  = assign_headers (from_option (fun ty => type_in ty (headers r)) (headers r) o)
      (assign_type (default (_type r) o) r).
Proof. destruct o as [ty|]; [apply set_type_eq | destruct r; reflexivity]. Qed.

Lemma when_dataType o r :
  when o set_dataType r
  = assign_headers (from_option (fun d => dataType_in d (headers r)) (headers r) o)
      (assign_dataType (default (_dataType r) o) r).
Proof. destruct o as [d|]; [apply set_dataType_eq | destruct r; reflexivity]. Qed.

Lemma when_contentType o r :
  when o set_contentType r
  = assign_headers (from_option (fun c => contentType_in c (headers r)) (headers r) o) r.
Proof. destruct o as [c|]; [apply set_contentType_eq | destruct r; reflexivity]. Qed.

Lemma when_timeout o r :
  when o (fun t => assign_timeout (Z.max 0 t)) r
  = assign_timeout (from_option (Z.max 0) (timeout r) o) r.
Proof. destruct o, r; reflexivity. Qed.

Lemma when_useXHR o r :
  when o assign_useXHR r = assign_useXHR (default (useXHR r) o) r.
Proof. destruct o, r; reflexivity. Qed.

Lemma when_credentials o r :
  when o assign_credentials r = assign_credentials (default (credentials r) o) r.
Proof. destruct o, r; reflexivity. Qed.

Lemma when_parse o r :
  when o (fun f => assign_parse (Some f)) r
  = assign_parse (from_option Some (parse r) o) r.
Proof. destruct o, r; reflexivity. Qed.

Lemma when_headers o r :
  when o (fun h r => assign_headers (h ∪ headers r) r) r
  = assign_headers (from_option (fun h => h ∪ headers r) (headers r) o) r.
Proof. destruct o, r; reflexivity. Qed.

(** [resolveURL] reads the method only. *)
Lemma resolveURL_method r1 r2 url data :
  method r1 = method r2 -> resolveURL r1 url data = resolveURL r2 url data.
Proof. intros H. unfold resolveURL, isQuery. rewrite H. reflexivity. Qed.

(** The constructor, field by field. *)
Lemma new_Request_eq url data o :
  let m := default GET (RequestOptions.method o) in
  let ty := default RequestType.json (RequestOptions.type o) in
  let u := resolveURL (assign_method m Request_fields) url data in
  new_Request url data o
  = {| _url := u;
       _data := body_of (assign_type ty (assign_method m Request_fields)) data;
       _type := ty;
       _dataType := default RequestDataType.json (RequestOptions.dataType o);
       headers := from_option (fun h => h ∪ derived_headers o) (derived_headers o)
                    (RequestOptions.headers o);
       method := m;
       timeout := from_option (Z.max 0) 0 (RequestOptions.timeout o);
       useXHR := default false (RequestOptions.useXHR o);
       cors := crosses_origin u;
       credentials := negb (crosses_origin u)
                      || default false (RequestOptions.credentials o);
       parse := RequestOptions.parse o;
       xhr := None;
       fetchTimeoutTimer := 0 |}.
Proof.
  intros m ty u. unfold new_Request. cbv zeta.
  rewrite when_headers, force_credentials_eq, set_data_eq, set_url_eq.
  rewrite when_parse, when_credentials, when_useXHR, when_timeout.
  rewrite when_contentType, when_dataType, when_type, when_method.
  destruct (RequestOptions.parse o); reflexivity.
Qed.

Lemma method_new_is url data o :
  method (new_Request url data o) = default GET (RequestOptions.method o).
Proof. rewrite new_Request_eq. reflexivity. Qed.

Lemma timeout_new_is url data o :
  timeout (new_Request url data o)
  = from_option (Z.max 0) 0 (RequestOptions.timeout o).
Proof. rewrite new_Request_eq. reflexivity. Qed.

Lemma type_new_is url data o :
  _type (new_Request url data o) = default RequestType.json (RequestOptions.type o).
Proof. rewrite new_Request_eq. reflexivity. Qed.

Lemma headers_new_is url data o :
  headers (new_Request url data o)
  = from_option (fun h => h ∪ derived_headers o) (derived_headers o)
      (RequestOptions.headers o).
Proof. rewrite new_Request_eq. reflexivity. Qed.

(** ** Query calls (C7) *)

Lemma isQuery_iff r : isQuery r = true <-> method r = GET \/ method r = HEAD.
Proof.
  unfold isQuery. destruct (method r); split; intros H; try reflexivity;
    try discriminate; auto; destruct H; discriminate.
Qed.

Lemma starts_with_question_cons s : starts_with_question ("?" ++ s) = true.
Proof. reflexivity. Qed.

(** C7.  A call whose method is GET or HEAD appends its data to the URL: a
    string that begins with [?] as it is, any other non-empty string after
    a [?] that is put in between, so that there is exactly one separator;
    the empty string not at all.  An object is appended as its query
    serialisation under the same rule, and after a bare [?] when the
    serialisation is empty.  The body of such a call is [null]: the fetch
    settings carry no body and the legacy transport sends [null]. *)
Theorem query_call_url_and_body (url : string) (data : JsVal) (o : RequestOptions.t) :
  let r := new_Request url data o in
  method r = GET \/ method r = HEAD ->
  (forall c s, data = JStr (String c s) -> c <> "?"%char ->
     _url r = url ++ String "?" (String c s))
  /\ (forall s, data = JStr (String "?" s) -> _url r = url ++ String "?" s)
  /\ (data = JStr "" -> _url r = url)
  /\ (forall props, data = JObj props ->
        (forall c q, qs_stringify data = String c q -> c <> "?"%char ->
           _url r = url ++ String "?" (String c q))
        /\ (forall q, qs_stringify data = String "?" q -> _url r = url ++ String "?" q)
        /\ (qs_stringify data = "" -> _url r = url ++ "?"))
  /\ _data r = JNull
  /\ RequestInit.body (fetchSettings r) = JUndefined
  /\ XHR.sent <$> xhr (this (requestByXHR r)) = Some (Some JNull).
Proof.
  intros r Hm.
  assert (Hq : isQuery (assign_method (default GET (RequestOptions.method o)) Request_fields)
               = true).
  { apply isQuery_iff. subst r. rewrite method_new_is in Hm. exact Hm. }
  assert (Hurl : _url r = resolveURL (assign_method (default GET (RequestOptions.method o))
                                        Request_fields) url data).
  { subst r. rewrite new_Request_eq. reflexivity. }
  assert (Hdata : _data r = JNull).
  { subst r. rewrite new_Request_eq. cbn [_data]. unfold body_of.
    change (isQuery (assign_type _ ?x)) with (isQuery x). rewrite Hq. reflexivity. }
  unfold resolveURL in Hurl. rewrite Hq in Hurl. cbn [andb] in Hurl.
  assert (Hno : forall c : ascii, c <> "?"%char -> Ascii.eqb c "?" = false).
  { intros c Hc. apply Ascii.eqb_neq. exact Hc. }
  split; [|split; [|split; [|split; [|split; [|split]]]]].
  - intros c s -> Hc. rewrite Hurl. cbn [truthy String.eqb negb starts_with_question].
    rewrite (Hno c Hc). reflexivity.
  - intros s ->. rewrite Hurl. reflexivity.
  - intros ->. rewrite Hurl. reflexivity.
  - intros props ->. cbn [truthy] in Hurl. split; [|split].
    + intros c q Hs Hc. rewrite Hurl, Hs. cbn [starts_with_question].
      rewrite (Hno c Hc). reflexivity.
    + intros q Hs. rewrite Hurl, Hs. reflexivity.
    + intros Hs. rewrite Hurl, Hs. reflexivity.
  - exact Hdata.
  - unfold fetchSettings. cbn [RequestInit.body]. rewrite Hdata. reflexivity.
  - cbn. rewrite Hdata. reflexivity.
Qed.

(** ** Notifications of the generic entry (C8) *)

(** What [fetch] does when no observer throws. *)
Lemma fetch_quiet url data o net :
  (forall n, observers n = None) ->
  let req := new_Request url data o in
  fetch url data o net
  = match snd (request req net) with
    | Resolved d => ([OnSuccess d req; OnComplete None d req], Resolved d)
    | Rejected e => ([OnError e req; OnComplete (Some e) JNull req], Rejected e)
    | Unsettled => ([], Unsettled)
    end.
Proof.
  intros Hq req. unfold fetch. fold req.
  destruct (snd (request req net)) as [d|e|]; cbn [promise_then promise_catch];
    unfold fire; rewrite ?Hq; cbn; rewrite ?Hq; reflexivity.
Qed.

(** C8.  As long as no observer throws, a call through [fetch] that
    settles fires its own notification, [success] or [error], and then
    exactly one [complete]; a failed call hands the same error on to the
    caller as a rejection.  A call that never settles fires nothing. *)
Theorem fetch_notifies_then_completes (url : string) (data : JsVal)
    (o : RequestOptions.t) (net : Network) :
  (forall n, observers n = None) ->
  let req := new_Request url data o in
  match snd (request req net) with
  | Resolved d =>
      fetch url data o net = ([OnSuccess d req; OnComplete None d req], Resolved d)
  | Rejected e =>
      fetch url data o net
      = ([OnError e req; OnComplete (Some e) JNull req], Rejected e)
  | Unsettled => fetch url data o net = ([], Unsettled)
  end
  /\ (snd (request req net) <> Unsettled ->
      length (filter is_complete (fst (fetch url data o net))) = 1%nat).
Proof.
  intros Hq req. pose proof (fetch_quiet url data o net Hq) as H.
  cbv zeta in H. fold req in H. rewrite H.
  destruct (snd (request req net)) as [d|e|]; split; try reflexivity;
    intros Hs; try reflexivity; contradiction.
Qed.

(** ** The verb entries and the options object (C9) *)

(** C9.  Every verb entry writes its own verb to [method] of the options
    object it was given, whatever was there, and leaves the other members
    as they were; [upload] writes [form] to [type] as well.  The call is
    then made with the object as written, so the request has that
    method.  The writes stay: a later call that is handed the same object
    is built from them. *)
Theorem verb_entries_write_to_options (url : string) (data : JsVal)
    (o : RequestOptions.t) (net : Network) :
  (only_method_written GET o (fst (get url data o net))
   /\ only_method_written HEAD o (fst (head url data o net))
   /\ only_method_written POST o (fst (post url data o net))
   /\ only_method_written PUT o (fst (put url data o net))
   /\ only_method_written PATCH o (fst (patch url data o net))
   /\ only_method_written DELETE o (fst (del url data o net))
   /\ only_method_written OPTIONS o (fst (options url o net))
   /\ (RequestOptions.method (fst (upload url data o net)) = Some POST
       /\ RequestOptions.type (fst (upload url data o net)) = Some RequestType.form
       /\ other_members_kept o (fst (upload url data o net))))
  /\ (snd (get url data o net) = fetch url data (fst (get url data o net)) net
      /\ snd (head url data o net) = fetch url data (fst (head url data o net)) net
      /\ snd (post url data o net) = fetch url data (fst (post url data o net)) net
      /\ snd (put url data o net) = fetch url data (fst (put url data o net)) net
      /\ snd (patch url data o net) = fetch url data (fst (patch url data o net)) net
      /\ snd (del url data o net) = fetch url data (fst (del url data o net)) net
      /\ snd (options url o net) = fetch url JNull (fst (options url o net)) net
      /\ snd (upload url data o net) = fetch url data (fst (upload url data o net)) net)
  /\ (forall url' data' net',
        method (new_Request url' data' (fst (get url data o net))) = GET
        /\ method (new_Request url' data' (fst (head url data o net))) = HEAD
        /\ method (new_Request url' data' (fst (post url data o net))) = POST
        /\ method (new_Request url' data' (fst (put url data o net))) = PUT
        /\ method (new_Request url' data' (fst (patch url data o net))) = PATCH
        /\ method (new_Request url' data' (fst (del url data o net))) = DELETE
        /\ method (new_Request url' data' (fst (options url o net))) = OPTIONS
        /\ (let reused := fst (upload url data o net) in
            method (new_Request url' data' reused) = POST
            /\ _type (new_Request url' data' reused) = RequestType.form
            /\ _type (new_Request url' data' (fst (get url' data' reused net')))
               = RequestType.form
            /\ method (new_Request url' data' (fst (get url' data' reused net')))
               = GET)).
Proof.
  split; [|split].
  - unfold only_method_written, other_members_kept. repeat split.
  - repeat split.
  - intros url' data' net'. cbv zeta. cbn [upload post get head put patch del options fst].
    rewrite !method_new_is, !type_new_is. repeat split.
Qed.

(** ** Timeouts (C10) *)

(** A request whose timeout is not positive starts no timer on the fetch
    transport and installs no timeout handler on the legacy one. *)
Lemma no_timeout_no_timer (r : Request) :
  timeout r <= 0 ->
  existsb is_timeout_task (snd (fetchTasks r)) = false
  /\ fetchTimeoutTimer (fst (fetchTasks r)) = fetchTimeoutTimer r
  /\ (exists x, xhr (this (requestByXHR r)) = Some x
                /\ XHR.ontimeout x = false /\ XHR.timeout x = 0).
Proof.
  intros H. assert (Hlt : (0 <? timeout r) = false) by (apply Z.ltb_ge; exact H).
  unfold fetchTasks, requestByXHR. rewrite Hlt. cbn.
  repeat split. eexists. repeat split.
Qed.

(** With no timer in the race, only the network or an abort can settle a
    fetch call, and only a load, an error or an abort a legacy one. *)
Lemma no_timeout_waits (r : Request) :
  timeout r <= 0 ->
  snd (requestByFetchApi r None) = Unsettled
  /\ snd (requestByFetchApi r (Some TimerFires)) = Unsettled
  /\ promise (runXHR r []) = Unsettled
  /\ (forall n, promise (runXHR r (repeat TimeoutEvent n)) = Unsettled).
Proof.
  intros H. assert (Hlt : (0 <? timeout r) = false) by (apply Z.ltb_ge; exact H).
  unfold requestByFetchApi, fetchTasks. rewrite Hlt. cbn.
  repeat split.
  intros n. unfold runXHR.
  assert (Hstay : forall c, (exists x, xhr (this c) = Some x /\ XHR.ontimeout x = false) ->
                            dispatchEvent TimeoutEvent c = c).
  { intros c [x [Hx Ht]]. unfold dispatchEvent. rewrite Hx, Ht. reflexivity. }
  induction n as [|n IH]; [reflexivity|].
  cbn [repeat fold_left]. rewrite Hstay; [exact IH|].
  unfold requestByXHR. rewrite Hlt. cbn. eexists. split; reflexivity.
Qed.

(** C10.  A negative [timeout] option becomes a timeout of 0 when the
    request is constructed (the constructor is total: nothing is raised).
    With that timeout the fetch transport puts no timeout task in its race
    and starts no timer, the legacy transport sets neither the timeout of
    the operation nor a timeout handler, and a call the network never
    answers stays unsettled for ever on both. *)
Theorem negative_timeout_is_no_timeout (url : string) (data : JsVal)
    (o : RequestOptions.t) (t : Z) :
  RequestOptions.timeout o = Some t -> t < 0 ->
  let r := new_Request url data o in
  timeout r = 0
  /\ existsb is_timeout_task (snd (fetchTasks r)) = false
  /\ fetchTimeoutTimer (fst (fetchTasks r)) = 0
  /\ (exists x, xhr (this (requestByXHR r)) = Some x
                /\ XHR.ontimeout x = false /\ XHR.timeout x = 0)
  /\ snd (requestByFetchApi r None) = Unsettled
  /\ snd (requestByFetchApi r (Some TimerFires)) = Unsettled
  /\ promise (runXHR r []) = Unsettled
  /\ (forall n, promise (runXHR r (repeat TimeoutEvent n)) = Unsettled).
Proof.
  intros Ho Hneg r.
  assert (H0 : timeout r = 0).
  { subst r. rewrite timeout_new_is, Ho. cbn. lia. }
  assert (Hle : timeout r <= 0) by lia.
  destruct (no_timeout_no_timer r Hle) as (Htasks & Htimer & Hxhr).
  destruct (no_timeout_waits r Hle) as (Hf1 & Hf2 & Hx1 & Hx2).
  repeat split; try assumption.
  rewrite Htimer. subst r. rewrite new_Request_eq. reflexivity.
Qed.

(** ** Headers of a form call (C4) *)

Lemma derived_headers_form (o : RequestOptions.t) :
  RequestOptions.type o = Some RequestType.form ->
  RequestOptions.contentType o = None
  \/ RequestOptions.contentType o = Some ContentTypeFalse ->
  derived_headers o !! "Content-Type" = None.
Proof.
  intros Hty Hc. unfold derived_headers. rewrite Hty. cbn [from_option type_in].
  assert (Hd : forall (h : gmap string string),
             h !! "Content-Type" = None ->
             from_option (fun d => dataType_in d h) h (RequestOptions.dataType o)
               !! "Content-Type" = None).
  { intros h Hh. destruct (RequestOptions.dataType o); cbn; [|exact Hh].
    unfold dataType_in. rewrite lookup_insert_ne by discriminate. exact Hh. }
  destruct Hc as [-> | ->]; cbn [from_option contentType_in].
  - apply Hd. apply lookup_delete_eq.
  - apply lookup_delete_eq.
Qed.

(** C4, as the code has it.  The caller's headers are merged last and win
    over every derived one, on any call.  A [form] call therefore carries
    the [Content-Type] its caller supplied; it carries none when the caller
    supplied neither a [Content-Type] header nor a [contentType] string. *)
Theorem form_call_content_type (url : string) (data : JsVal) (o : RequestOptions.t) :
  RequestOptions.type o = Some RequestType.form ->
  let r := new_Request url data o in
  _type r = RequestType.form
  /\ (forall h k v, RequestOptions.headers o = Some h -> h !! k = Some v ->
        headers r !! k = Some v)
  /\ (forall h k, RequestOptions.headers o = Some h -> h !! k = None ->
        headers r !! k = derived_headers o !! k)
  /\ (RequestOptions.headers o = None -> headers r = derived_headers o)
  /\ ((RequestOptions.contentType o = None
       \/ RequestOptions.contentType o = Some ContentTypeFalse) ->
      (forall h, RequestOptions.headers o = Some h -> h !! "Content-Type" = None) ->
      headers r !! "Content-Type" = None).
Proof.
  intros Hty r. subst r. rewrite type_new_is, headers_new_is, Hty.
  split; [reflexivity|].
  split; [|split; [|split]].
  - intros h k v -> Hk. cbn. apply lookup_union_Some_l. exact Hk.
  - intros h k -> Hk. cbn. rewrite lookup_union_r by exact Hk. reflexivity.
  - intros ->. reflexivity.
  - intros Hc Hh. destruct (RequestOptions.headers o) as [h|] eqn:Hho; cbn.
    + rewrite lookup_union_r by (apply Hh; reflexivity).
      apply derived_headers_form; assumption.
    + apply derived_headers_form; assumption.
Qed.

(** ** Settlement of a completed response (C1) *)

Lemma get_prop_member v k :
  v <> JNull -> v <> JUndefined -> get_prop v k = Normal (member v k).
Proof. intros Hn Hu. destruct v; try reflexivity; contradiction. Qed.

Lemma status_is_exceptional_spec status :
  status_is_exceptional status = false <-> (200 <= status < 300 \/ status = 304).
Proof.
  unfold status_is_exceptional, REQUEST_SUCCESS_STATUS, REQUEST_300_STATUS,
    REQUEST_CACHE_STATUS.
  destruct (Z.ltb_spec status 200), (Z.leb_spec 300 status), (Z.eqb_spec status 304);
    cbn; split; intros; try discriminate; try reflexivity; lia.
Qed.

(** [parseResponse] reads the data type and the per-call parser only. *)
Lemma parseResponse_ext r1 r2 result :
  _dataType r1 = _dataType r2 -> parse r1 = parse r2 ->
  parseResponse r1 result = parseResponse r2 result.
Proof. intros Hd Hp. unfold parseResponse. rewrite Hd, Hp. reflexivity. Qed.

Lemma finallyFetch_frame r :
  _dataType (finallyFetch r) = _dataType r /\ parse (finallyFetch r) = parse r.
Proof. unfold finallyFetch. destruct (negb _); split; reflexivity. Qed.

Lemma chosen_message_converts statusText body m :
  js_to_string (member body "errormsg") = Normal m ->
  js_to_string (js_or (js_or (member body "errormsg") (JStr statusText))
                      (JStr REQUEST_ERROR_MSG))
  = Normal (chosen_message statusText body m).
Proof.
  intros Hm. unfold js_or, chosen_message.
  destruct (truthy (member body "errormsg")) eqn:Ht.
  - rewrite Ht. exact Hm.
  - cbn [truthy]. destruct (negb (String.eqb statusText "")); reflexivity.
Qed.

Lemma onFetchLoad_settles r res m :
  let body := parseFetchData r res in
  body <> JNull -> body <> JUndefined ->
  js_to_string (member body "errormsg") = Normal m ->
  snd (onFetchLoad r res)
  = if status_is_exceptional (Response.status res)
    then Rejected (ReqError (status_failure (Response.status res) body
                               (chosen_message (Response.statusText res) body m)))
    else resolve_or_reject (parseResponse r body).
Proof.
  intros body Hn Hu Hm. unfold onFetchLoad. cbv zeta.
  destruct (finallyFetch_frame r) as [Hd Hp].
  assert (Hbody : parseFetchData (finallyFetch r) res = body).
  { unfold body, parseFetchData. rewrite Hd. reflexivity. }
  rewrite Hbody.
  destruct (status_is_exceptional (Response.status res)).
  - rewrite !(get_prop_member body) by assumption. cbn [bind].
    unfold new_RequestError.
    rewrite (chosen_message_converts _ _ _ Hm). reflexivity.
  - cbn. rewrite (parseResponse_ext (finallyFetch r) r) by assumption. reflexivity.
Qed.

Lemma onXHRLoad_settles r status statusText text body m :
  xhr_body r text body -> body <> JNull -> body <> JUndefined ->
  js_to_string (member body "errormsg") = Normal m ->
  let c := dispatchEvent (LoadEvent 4 status statusText text) (requestByXHR r) in
  promise c
  = (if status_is_exceptional status
     then Rejected (ReqError (status_failure status body
                                (chosen_message statusText body m)))
     else resolve_or_reject (parseResponse r body))
  /\ uncaught c = None
  /\ xhr (this c) = None.
Proof.
  intros Hb Hn Hu Hm c. subst c. unfold xhr_body in Hb.
  unfold dispatchEvent, requestByXHR, onXHRLoad.
  cbn [this promise uncaught xhr assign_xhr XHR.onload XHR.complete XHR.readyState
       XHR.responseText XHR.status XHR.statusText finallyXHR _dataType parse].
  cbn [Z.eqb Pos.eqb].
  assert (Hresult :
    match _dataType r with
    | RequestDataType.json =>
        if negb (String.eqb text "") then
          match JSON_parse text with
          | Some v => Normal v
          | None => Throw SyntaxError
          end
        else Normal (JObj [])
    | RequestDataType.text => Normal (JStr text)
    end = Normal body).
  { destruct (_dataType r).
    - destruct Hb as [[-> ->] | [Hne Hp]]; [reflexivity|].
      destruct (String.eqb_spec text ""); [contradiction|]. cbn. rewrite Hp. reflexivity.
    - rewrite Hb. reflexivity. }
  rewrite Hresult. cbn [bind].
  destruct (status_is_exceptional status).
  - rewrite !(get_prop_member body) by assumption. cbn [bind].
    unfold new_RequestError.
    rewrite (chosen_message_converts _ _ _ Hm). cbn. repeat split.
  - cbn. repeat split.
Qed.

(** Settlement by status, as the code has it.  A completed response whose parsed body is not
    [null], and whose [errormsg] converts to a string [m] (every string
    does, and so does a missing one), settles the call by its HTTP status.
    On a status in [200,300) or 304 the call settles as the response
    normaliser does on the body: it resolves with the normalised data, or
    rejects with what the normaliser throws (a body that declares
    [success] false, a failing parser).  On any other status it rejects
    with a failure whose status is the HTTP status, whose message is the
    body's [errormsg] if truthy, else the status text if not empty, else
    the generic message, and whose code is the body's [errorcode] if
    truthy, else the status as a string.  The fetch transport and the
    legacy transport (for a load at ready state 4 whose text is empty or
    parses) agree on this. *)
Theorem load_settles_by_status (r : Request) (status : Z) (statusText : string)
    (body : JsVal) (m : string) :
  body <> JNull -> body <> JUndefined ->
  js_to_string (member body "errormsg") = Normal m ->
  let settled (o : Outcome) : Prop :=
    ((200 <= status < 300 \/ status = 304) ->
       o = match parseResponse r body with
           | Normal data => Resolved data
           | Throw e => Rejected e
           end)
    /\ (~ (200 <= status < 300 \/ status = 304) ->
        exists e, o = Rejected (ReqError e)
          /\ RequestError.status e = JNum status
          /\ RequestError.message e
             = (if truthy (member body "errormsg") then m
                else if negb (String.eqb statusText "") then statusText
                else REQUEST_ERROR_MSG)
          /\ RequestError.code e
             = (if truthy (member body "errorcode") then member body "errorcode"
                else JStr (pretty status))) in
  (forall res, Response.status res = status -> Response.statusText res = statusText ->
     parseFetchData r res = body ->
     settled (snd (onFetchLoad r res)))
  /\ (forall text, xhr_body r text body ->
        settled (promise (dispatchEvent (LoadEvent 4 status statusText text)
                            (requestByXHR r)))).
Proof.
  intros Hn Hu Hm settled.
  assert (Hsettled : settled
            (if status_is_exceptional status
             then Rejected (ReqError (status_failure status body
                                        (chosen_message statusText body m)))
             else resolve_or_reject (parseResponse r body))).
  { unfold settled. split.
    - intros Hok. apply status_is_exceptional_spec in Hok. rewrite Hok. reflexivity.
    - intros Hbad. destruct (status_is_exceptional status) eqn:He.
      + eexists. split; [reflexivity|]. repeat split.
      + apply status_is_exceptional_spec in He. contradiction. }
  split.
  - intros res <- <- Hb.
    rewrite (onFetchLoad_settles r res m); rewrite Hb; assumption.
  - intros text Hb.
    destruct (onXHRLoad_settles r status statusText text body m Hb Hn Hu Hm) as [-> _].
    exact Hsettled.
Qed.

(** C1.  On a status outside [200,300) other than 304 the error message
    and the error code that the body embeds under the names of the
    standard response, [errorMessage] and [errorCode], are not read: the
    handlers look for [errormsg] and [errorcode], which a standard
    response does not have.  Whatever such a body says, the call rejects
    with the status text for message and the status as a string for
    code, on both transports. *)
Theorem status_failure_ignores_error_message (r : Request) (status : Z)
    (statusText : string) (props : list (string * JsVal)) (em ec : JsVal) :
  _dataType r = RequestDataType.json ->
  ~ (200 <= status < 300 \/ status = 304) ->
  statusText <> "" ->
  assoc_get "errorMessage" props = Some em -> truthy em = true ->
  assoc_get "errorCode" props = Some ec -> truthy ec = true ->
  assoc_get "errormsg" props = None -> assoc_get "errorcode" props = None ->
  let failure :=
    Rejected (ReqError {| RequestError.status := JNum status;
                          RequestError.code := JStr (pretty status);
                          RequestError.message := statusText;
                          RequestError.stack := None |}) in
  (forall res, Response.status res = status -> Response.statusText res = statusText ->
     Response.json res = Some (JObj props) ->
     snd (onFetchLoad r res) = failure)
  /\ (forall text, text <> "" -> JSON_parse text = Some (JObj props) ->
        promise (dispatchEvent (LoadEvent 4 status statusText text) (requestByXHR r))
        = failure).
Proof.
  intros Hd Hbad Hst _ _ _ _ Hmsg Hcode failure.
  assert (Hex : status_is_exceptional status = true).
  { destruct (status_is_exceptional status) eqn:He; [reflexivity|].
    apply status_is_exceptional_spec in He. contradiction. }
  assert (Hm : js_to_string (member (JObj props) "errormsg") = Normal "undefined").
  { cbn. rewrite Hmsg. reflexivity. }
  assert (Hfail : Rejected (ReqError (status_failure status (JObj props)
                                        (chosen_message statusText (JObj props)
                                           "undefined")))
                  = failure).
  { unfold failure, status_failure, chosen_message, js_or. cbn [member get_prop].
    rewrite Hmsg, Hcode. cbn.
    destruct (String.eqb_spec statusText ""); [contradiction | reflexivity]. }
  split.
  - intros res <- <- Hj.
    assert (Hb : parseFetchData r res = JObj props).
    { unfold parseFetchData, parseFetchJSONData. rewrite Hd, Hj. reflexivity. }
    rewrite (onFetchLoad_settles r res "undefined"); rewrite ?Hb;
      try discriminate; try exact Hm.
    rewrite Hex. exact Hfail.
  - intros text Hne Hp.
    assert (Hb : xhr_body r text (JObj props)).
    { unfold xhr_body. rewrite Hd. right. split; assumption. }
    destruct (onXHRLoad_settles r status statusText text (JObj props) "undefined" Hb
                ltac:(discriminate) ltac:(discriminate) Hm) as [-> _].
    rewrite Hex. exact Hfail.
Qed.

(** ** The default parser (C2) *)

Lemma assoc_get_set_eq k v props : assoc_get k (assoc_set k v props) = Some v.
Proof.
  induction props as [|[k' v'] rest IH]; cbn.
  - rewrite String.eqb_refl. reflexivity.
  - destruct (String.eqb k k') eqn:E; cbn; rewrite ?String.eqb_refl, ?E; auto.
Qed.

Lemma assoc_get_set_ne k k' v props :
  k <> k' -> assoc_get k' (assoc_set k v props) = assoc_get k' props.
Proof.
  intros Hne. induction props as [|[k0 v0] rest IH]; cbn.
  - destruct (String.eqb_spec k' k); [congruence | reflexivity].
  - destruct (String.eqb_spec k k0) as [->|Hk]; cbn.
    + destruct (String.eqb_spec k' k0); [congruence | reflexivity].
    + destruct (String.eqb k' k0); [reflexivity | exact IH].
Qed.

(** Only an object owns a [success] property: the assignments of
    [defaultParseResponse] never meet another kind of value. *)
Lemma own_success_is_object v :
  hasOwnProperty v "success" = Normal true -> exists props, v = JObj props.
Proof.
  destruct v; cbn; intros H; try discriminate; eauto.
Qed.

(** A body without [success] or without [data] is wrapped whole, whatever
    it is, as long as it is not [null] (and, for an object, does not hide
    the [hasOwnProperty] method). *)
Lemma defaultParseResponse_wraps body :
  body <> JNull -> body <> JUndefined ->
  (forall props, body = JObj props ->
     assoc_get "hasOwnProperty" props = None
     /\ (assoc_get "success" props = None \/ assoc_get "data" props = None)) ->
  defaultParseResponse body
  = Normal (JObj [("success", JBool true); ("statusCode", JNum 200);
                  ("errorCode", JNum 0); ("errorMessage", JNull);
                  ("errorStack", JNull); ("data", body)]).
Proof.
  intros Hn Hu Hobj. destruct body; try contradiction; try reflexivity.
  unfold defaultParseResponse. cbn [hasOwnProperty bind].
  destruct (Hobj props eq_refl) as [Hh [H | H]]; rewrite Hh, H; cbn.
  - reflexivity.
  - destruct (bool_decide _); reflexivity.
Qed.

Lemma fill_other k k' missing v props :
  k <> k' -> assoc_get k' (fill k missing v props) = assoc_get k' props.
Proof.
  intros Hne. unfold fill. destruct (missing _); [|reflexivity].
  apply assoc_get_set_ne. exact Hne.
Qed.

Lemma fill_absent k missing v props :
  assoc_get k props = None -> missing JUndefined = true ->
  assoc_get k (fill k missing v props) = Some v.
Proof.
  intros Hk Hm. unfold fill. rewrite Hk. cbn. rewrite Hm. apply assoc_get_set_eq.
Qed.

(** One guarded assignment of [defaultParseResponse], on an object. *)
Lemma fill_falsy_step k v props (K : JsVal -> Completion JsVal) :
  bind (get_prop (JObj props) k)
    (fun x => bind (if negb (truthy x) then set_prop (JObj props) k v
                    else Normal (JObj props)) K)
  = K (JObj (fill k falsy v props)).
Proof.
  cbn [get_prop bind]. unfold fill, falsy.
  destruct (negb (truthy (default JUndefined (assoc_get k props)))); reflexivity.
Qed.

Lemma fill_undefined_step k v props (K : JsVal -> Completion JsVal) :
  bind (get_prop (JObj props) k)
    (fun x => bind (match x with
                    | JUndefined => set_prop (JObj props) k v
                    | _ => Normal (JObj props)
                    end) K)
  = K (JObj (fill k is_undefined v props)).
Proof.
  cbn [get_prop bind]. unfold fill.
  destruct (default JUndefined (assoc_get k props)); reflexivity.
Qed.

(** The conforming branch of [defaultParseResponse], as four fills. *)
Lemma defaultParseResponse_object props :
  assoc_get "hasOwnProperty" props = None ->
  is_Some (assoc_get "success" props) -> is_Some (assoc_get "data" props) ->
  defaultParseResponse (JObj props)
  = Normal (JObj (fill "errorStack" is_undefined JNull
                    (fill "errorMessage" is_undefined JNull
                       (fill "errorCode" falsy (JNum 0)
                          (fill "statusCode" falsy (JNum 200) props))))).
Proof.
  intros Hh [s Hs] [d Hd]. unfold defaultParseResponse.
  cbn [hasOwnProperty]. rewrite Hh, Hs, Hd. cbn [bool_decide andb bind].
  rewrite fill_falsy_step, fill_falsy_step, fill_undefined_step, fill_undefined_step.
  reflexivity.
Qed.

(** A body with both properties is returned with the four other members
    filled in where they are missing; [success] and [data] are kept. *)
Lemma defaultParseResponse_conforming props s d :
  assoc_get "hasOwnProperty" props = None ->
  assoc_get "success" props = Some s -> assoc_get "data" props = Some d ->
  exists props',
    defaultParseResponse (JObj props) = Normal (JObj props')
    /\ assoc_get "success" props' = Some s
    /\ assoc_get "data" props' = Some d
    /\ (assoc_get "statusCode" props = None ->
        assoc_get "statusCode" props' = Some (JNum 200))
    /\ (assoc_get "errorCode" props = None ->
        assoc_get "errorCode" props' = Some (JNum 0))
    /\ (assoc_get "errorMessage" props = None ->
        assoc_get "errorMessage" props' = Some JNull)
    /\ (assoc_get "errorStack" props = None ->
        assoc_get "errorStack" props' = Some JNull).
Proof.
  intros Hh Hs Hd. eexists. split.
  { apply defaultParseResponse_object; rewrite ?Hs, ?Hd; eauto. }
  repeat split.
  - rewrite !fill_other by discriminate. exact Hs.
  - rewrite !fill_other by discriminate. exact Hd.
  - intros H. rewrite !(fill_other _ "statusCode") by discriminate.
    apply fill_absent; [exact H | reflexivity].
  - intros H. rewrite !(fill_other _ "errorCode") by discriminate.
    apply fill_absent; [|reflexivity].
    rewrite fill_other by discriminate. exact H.
  - intros H. rewrite !(fill_other _ "errorMessage") by discriminate.
    apply fill_absent; [|reflexivity].
    rewrite !fill_other by discriminate. exact H.
  - intros H. apply fill_absent; [|reflexivity].
    rewrite !fill_other by discriminate. exact H.
Qed.

(** A server object without the wrapper resolves to itself. *)
Lemma unwrapped_object_resolves_to_itself r props :
  _dataType r = RequestDataType.json -> parse r = None ->
  responseParseFunction = None ->
  assoc_get "hasOwnProperty" props = None ->
  assoc_get "success" props = None \/ assoc_get "data" props = None ->
  parseResponse r (JObj props) = Normal (JObj props).
Proof.
  intros Hd Hp Hg Hh Hw. unfold parseResponse. rewrite Hd, Hp, Hg.
  rewrite defaultParseResponse_wraps; try discriminate.
  - reflexivity.
  - intros props' [= <-]. split; assumption.
Qed.

(** ** Origin and credentials (C3) *)

(** The lazy group of the absolute-URL pattern is followed by nothing, so
    it never takes a character. *)
Lemma lazy_dot_star_accepts captured rest :
  lazy_dot_star (fun c (_ : string) => Some c) captured rest = Some captured.
Proof. destruct rest; reflexivity. Qed.

Lemma ABSOLUTE_PATH_REG_captures_nothing s d :
  ABSOLUTE_PATH_REG s = Some d -> d = "".
Proof.
  unfold ABSOLUTE_PATH_REG. generalize (after_scheme s) as alts.
  induction alts as [|a alts IH]; cbn [slashes_then_group]; [discriminate|].
  destruct (match_literal_i "//" a) as [rest|]; [|exact IH].
  rewrite lazy_dot_star_accepts. intros [= <-]. reflexivity.
Qed.

(** What the constructor decides: a URL is cross-origin when it matches
    the absolute-URL pattern and the page has a host name at all; the
    credentials flag is forced for every other URL. *)
Lemma cors_of_new_Request url data o :
  let r := new_Request url data o in
  cors r = match ABSOLUTE_PATH_REG (_url r) with
           | Some _ => negb (String.eqb "" (Window.hostname window))
           | None => false
           end
  /\ (cors r = false -> credentials r = true)
  /\ (cors r = true ->
      credentials r = default false (RequestOptions.credentials o)).
Proof.
  intros r. subst r. rewrite new_Request_eq. cbn [cors credentials _url].
  unfold crosses_origin.
  destruct (ABSOLUTE_PATH_REG _) as [d|] eqn:Hd.
  - apply ABSOLUTE_PATH_REG_captures_nothing in Hd. subst d.
    destruct (negb (String.eqb "" (Window.hostname window))); cbn;
      repeat split; intros; try reflexivity; discriminate.
  - cbn. repeat split. discriminate.
Qed.

(** ** The legacy load handler and a text that is not JSON (C5) *)

Lemma dispatch_released ev c : xhr (this c) = None -> dispatchEvent ev c = c.
Proof. intros H. unfold dispatchEvent. rewrite H. reflexivity. Qed.

Lemma released_stays events c :
  xhr (this c) = None -> fold_left (fun c ev => dispatchEvent ev c) events c = c.
Proof.
  intros H. induction events as [|ev events IH]; cbn; [reflexivity|].
  rewrite dispatch_released by exact H. exact IH.
Qed.

(** The part of C5 the handler does: an empty text stands for an empty
    object. *)
Lemma xhr_load_empty_text r :
  _dataType r = RequestDataType.json ->
  xhr_body r "" (JObj []).
Proof. intros H. unfold xhr_body. rewrite H. left. split; reflexivity. Qed.

(** C5 at a text that is not JSON.  On the legacy transport with the JSON
    data type, a load whose non-empty text [JSON.parse] rejects makes the
    handler throw a SyntaxError past every [catch]: the promise is neither
    resolved nor rejected, and since the handlers were detached first, no
    later event settles it. *)
Theorem xhr_load_invalid_json_never_settles (r : Request) (status : Z)
    (statusText text : string) :
  _dataType r = RequestDataType.json -> text <> "" -> JSON_parse text = None ->
  let c := dispatchEvent (LoadEvent 4 status statusText text) (requestByXHR r) in
  promise c = Unsettled
  /\ uncaught c = Some SyntaxError
  /\ (forall events,
        promise (fold_left (fun c ev => dispatchEvent ev c) events c) = Unsettled).
Proof.
  intros Hd Hne Hp c.
  assert (Hc : promise c = Unsettled /\ uncaught c = Some SyntaxError
               /\ xhr (this c) = None).
  { subst c. unfold dispatchEvent, requestByXHR, onXHRLoad.
    cbn [this promise uncaught xhr assign_xhr XHR.onload XHR.complete XHR.readyState
         XHR.responseText XHR.status XHR.statusText finallyXHR _dataType parse].
    cbn [Z.eqb Pos.eqb]. rewrite Hd.
    destruct (String.eqb_spec text ""); [contradiction|].
    cbn [negb]. rewrite Hp. cbn. repeat split. }
  destruct Hc as (H1 & H2 & H3). repeat split; try assumption.
  intros events. rewrite released_stays by exact H3. exact H1.
Qed.

(** ** The legacy error handler (C6) *)

(** C6 on the code.  When the error handler of the legacy transport fires,
    the call rejects with status 500, code [1000] and the message the
    constant [REQUEST_ERROR_MSG] holds, which is spelled [Unknow Error]:
    it is not the message [Unknown Error]. *)
Theorem xhr_error_rejects_with_unknow_error (r : Request) :
  promise (dispatchEvent ErrorEvent (requestByXHR r))
  = Rejected (ReqError {| RequestError.status := JNum 500;
                          RequestError.code := JStr "1000";
                          RequestError.message := "Unknow Error";
                          RequestError.stack := None |})
  /\ REQUEST_ERROR_MSG <> "Unknown Error".
Proof. split; [reflexivity | discriminate]. Qed.

(** * Further properties *)

(** ** Body and URL of a call *)

(** X1.  A call whose method is not GET or HEAD and whose data is not
    [null] leaves the URL as given and sends a body: the JSON text of the
    data for the [json] type, its query serialisation for [urlencoded],
    the data itself for [text] and [form]. *)
Theorem write_call_url_and_body (url : string) (data : JsVal) (o : RequestOptions.t) :
  let r := new_Request url data o in
  isQuery r = false -> is_nullish data = false ->
  _url r = url
  /\ _data r = match _type r with
              | RequestType.json => JStr (JSON_stringify data)
              | RequestType.urlencoded => JStr (qs_stringify data)
              | RequestType.text | RequestType.form => data
              end
  /\ RequestInit.body (fetchSettings r) = _data r
  /\ XHR.sent <$> xhr (this (requestByXHR r)) = Some (Some (_data r)).
Proof.
  intros r Hq Hn.
  assert (Hm : isQuery (assign_method (default GET (RequestOptions.method o))
                          Request_fields) = false).
  { subst r. unfold isQuery in *. rewrite method_new_is in Hq. exact Hq. }
  assert (Hurl : _url r = url).
  { subst r. rewrite new_Request_eq. cbn [_url]. unfold resolveURL.
    rewrite Hm. reflexivity. }
  assert (Hdata : _data r = match _type r with
                            | RequestType.json => JStr (JSON_stringify data)
                            | RequestType.urlencoded => JStr (qs_stringify data)
                            | RequestType.text | RequestType.form => data
                            end).
  { subst r. rewrite new_Request_eq. cbn [_data _type]. unfold body_of.
    change (isQuery (assign_type _ ?x)) with (isQuery x). rewrite Hm, Hn.
    cbn [orb _type assign_type].
    destruct (default RequestType.json (RequestOptions.type o)); reflexivity. }
  assert (Hsent : is_nullish (_data r) = false).
  { rewrite Hdata. destruct (_type r); try reflexivity; exact Hn. }
  repeat split; try assumption.
  unfold fetchSettings. cbn [RequestInit.body]. rewrite Hsent. reflexivity.
Qed.

(** X2.  Falsy data ([null], [undefined], [false], 0, the empty string)
    never changes the URL, whatever the method: no [?] is appended.  When
    the data is [null] or [undefined] no body is sent either. *)
Theorem falsy_data_leaves_url (url : string) (data : JsVal) (o : RequestOptions.t) :
  truthy data = false ->
  let r := new_Request url data o in
  _url r = url
  /\ (is_nullish data = true ->
      _data r = JNull
      /\ RequestInit.body (fetchSettings r) = JUndefined
      /\ XHR.sent <$> xhr (this (requestByXHR r)) = Some (Some JNull)).
Proof.
  intros Hf r.
  assert (Hurl : _url r = url).
  { subst r. rewrite new_Request_eq. cbn [_url]. unfold resolveURL.
    rewrite Hf, andb_false_r. reflexivity. }
  split; [exact Hurl|]. intros Hn.
  assert (Hdata : _data r = JNull).
  { subst r. rewrite new_Request_eq. cbn [_data]. unfold body_of.
    rewrite Hn, orb_true_r. reflexivity. }
  repeat split; try assumption.
  - unfold fetchSettings. cbn [RequestInit.body]. rewrite Hdata. reflexivity.
  - cbn. rewrite Hdata. reflexivity.
Qed.

(** ** The final header set *)

Lemma derived_headers_lookup (o : RequestOptions.t) (k : string) :
  derived_headers o !! k
  = if String.eqb k "Content-Type" then derived_content_type o
    else if String.eqb k "Accept" then Some (derived_accept o)
    else None.
Proof.
  unfold derived_headers, derived_content_type, derived_accept, Request_fields.
  cbn [headers].
  destruct (RequestOptions.type o) as [ty|], (RequestOptions.dataType o) as [d|],
    (RequestOptions.contentType o) as [[s|]|];
    cbn [from_option default];
    try destruct ty; try destruct d;
    unfold type_in, dataType_in, contentType_in;
    destruct (String.eqb_spec k "Content-Type") as [->|Hc];
    try (destruct (String.eqb_spec k "Accept") as [->|Ha]);
    cbn [RequestDataType.key contentTypes];
    simplify_map_eq; reflexivity.
Qed.

(** X3.  Every header of a constructed request: a header the caller
    supplied has the caller's value; otherwise [Content-Type] is the
    [contentType] option when it is a string, absent when it is [false],
    and else the table entry of the submission type ([application/json]
    by default, absent for [form]); [Accept] is the table entry of the
    data type; and there is no other header. *)
Theorem final_header_set (url : string) (data : JsVal) (o : RequestOptions.t)
    (k : string) :
  headers (new_Request url data o) !! k
  = match default ∅ (RequestOptions.headers o) !! k with
    | Some v => Some v
    | None =>
        if String.eqb k "Content-Type" then derived_content_type o
        else if String.eqb k "Accept" then Some (derived_accept o)
        else None
    end.
Proof.
  rewrite headers_new_is, <- derived_headers_lookup.
  destruct (RequestOptions.headers o) as [h|]; cbn [from_option default id].
  - destruct (h !! k) as [v|] eqn:Hk.
    + apply lookup_union_Some_l. exact Hk.
    + apply lookup_union_r. exact Hk.
  - rewrite lookup_empty. reflexivity.
Qed.

(** ** What the verb entries send *)

(** X4.  [get] and [head] never send a body and [options] sends neither a
    body nor a query, whatever method, type or data the caller's options
    and arguments name. *)
Theorem get_head_options_send_no_body (url : string) (data : JsVal)
    (o : RequestOptions.t) (net : Network) :
  let by_get := new_Request url data (fst (get url data o net)) in
  let by_head := new_Request url data (fst (head url data o net)) in
  let by_options := new_Request url JNull (fst (options url o net)) in
  (method by_get = GET /\ _data by_get = JNull
   /\ RequestInit.body (fetchSettings by_get) = JUndefined)
  /\ (method by_head = HEAD /\ _data by_head = JNull
      /\ RequestInit.body (fetchSettings by_head) = JUndefined)
  /\ (method by_options = OPTIONS /\ _url by_options = url
      /\ _data by_options = JNull
      /\ RequestInit.body (fetchSettings by_options) = JUndefined).
Proof.
  cbv zeta. cbn [get head options fst].
  rewrite !new_Request_eq. cbn. repeat split.
Qed.

(** X5.  [upload] makes a POST of type [form] to the URL as given, with
    the form data handed to the transport untouched; unless the caller
    asks for one (a [contentType] string or a [Content-Type] header), the
    request has no [Content-Type] header, so that the browser can set the
    multipart boundary. *)
Theorem upload_passes_form_data_through (url : string) (data : JsVal)
    (o : RequestOptions.t) (net : Network) :
  is_nullish data = false ->
  let r := new_Request url data (fst (upload url data o net)) in
  method r = POST
  /\ _type r = RequestType.form
  /\ _url r = url
  /\ _data r = data
  /\ ((RequestOptions.contentType o = None
       \/ RequestOptions.contentType o = Some ContentTypeFalse) ->
      default ∅ (RequestOptions.headers o) !! "Content-Type" = None ->
      headers r !! "Content-Type" = None).
Proof.
  intros Hn r. subst r. cbn [upload post fst].
  split; [rewrite method_new_is; reflexivity|].
  split; [rewrite type_new_is; reflexivity|].
  split; [rewrite new_Request_eq; reflexivity|].
  split.
  - rewrite new_Request_eq. cbn [_data RequestOptions.method RequestOptions.type
      RequestOptions.set_method RequestOptions.set_type default].
    unfold body_of. cbn. rewrite Hn. reflexivity.
  - intros Hc Hh. rewrite headers_new_is.
    cbn [RequestOptions.headers RequestOptions.set_method RequestOptions.set_type].
    assert (Hd : derived_headers
                   (RequestOptions.set_method POST
                      (RequestOptions.set_type RequestType.form o))
                   !! "Content-Type" = None).
    { rewrite derived_headers_lookup. cbn [String.eqb Ascii.eqb Bool.eqb].
      unfold derived_content_type.
      cbn [RequestOptions.contentType RequestOptions.type RequestOptions.set_method
           RequestOptions.set_type default].
      destruct Hc as [-> | ->]; reflexivity. }
    destruct (RequestOptions.headers o) as [h|]; cbn [from_option default] in *.
    + rewrite lookup_union_r by exact Hh. exact Hd.
    + exact Hd.
Qed.

(** ** Timeout, abort and network failure *)

Lemma finallyFetch_clears r : fetchTimeoutTimer (finallyFetch r) = 0.
Proof.
  unfold finallyFetch. destruct (Z.eqb_spec (fetchTimeoutTimer r) 0) as [H|H];
    cbn; [exact H | reflexivity].
Qed.

Lemma armed_timeout (r : Request) :
  0 < timeout r ->
  In (TimeoutTask (timeout r)) (snd (fetchTasks r))
  /\ snd (requestByFetchApi r (Some TimerFires)) = timeout_failure
  /\ fetchTimeoutTimer (fst (requestByFetchApi r (Some TimerFires))) = 0
  /\ (exists x, xhr (this (requestByXHR r)) = Some x
                /\ XHR.timeout x = timeout r /\ XHR.ontimeout x = true)
  /\ promise (runXHR r [TimeoutEvent]) = timeout_failure
  /\ xhr (this (runXHR r [TimeoutEvent])) = None.
Proof.
  intros Hpos.
  assert (Hlt : (0 <? timeout r) = true) by (apply Z.ltb_lt; lia).
  unfold requestByFetchApi, fetchTasks, runXHR, requestByXHR.
  rewrite Hlt. cbn -[finallyFetch].
  split; [left; reflexivity|].
  split; [reflexivity|].
  split; [apply finallyFetch_clears|].
  split; [eexists; repeat split|].
  split; reflexivity.
Qed.

(** X6.  A positive [timeout] option is kept as it is, and both transports
    arm it: the fetch transport puts a timer of that many milliseconds in
    its race, the legacy transport sets the timeout of the operation and a
    handler for it.  When the timer is the first to fire the call rejects
    with status 504, code [1001] and message [Request Timeout], and the
    timer handle, respectively the operation, is released. *)
Theorem positive_timeout_rejects_with_504 (url : string) (data : JsVal)
    (o : RequestOptions.t) (t : Z) :
  RequestOptions.timeout o = Some t -> 0 < t ->
  let r := new_Request url data o in
  timeout r = t
  /\ In (TimeoutTask t) (snd (fetchTasks r))
  /\ snd (requestByFetchApi r (Some TimerFires)) = timeout_failure
  /\ fetchTimeoutTimer (fst (requestByFetchApi r (Some TimerFires))) = 0
  /\ (exists x, xhr (this (requestByXHR r)) = Some x
                /\ XHR.timeout x = t /\ XHR.ontimeout x = true)
  /\ promise (runXHR r [TimeoutEvent]) = timeout_failure
  /\ xhr (this (runXHR r [TimeoutEvent])) = None.
Proof.
  intros Ho Hpos r.
  assert (Ht : timeout r = t).
  { subst r. rewrite timeout_new_is, Ho. cbn. lia. }
  clearbody r. split; [exact Ht|].
  rewrite <- Ht in *. apply armed_timeout. exact Hpos.
Qed.

(** X7.  The abort closure of the fetch transport and the [abort] event
    of the legacy one reject the call with status 400, code [1002] and
    message [Request Aborted], and release the timer handle, respectively
    the operation. *)
Theorem abort_rejects_with_400 (r : Request) :
  snd (requestByFetchApi r (Some AbortCalled)) = abort_failure
  /\ fetchTimeoutTimer (fst (requestByFetchApi r (Some AbortCalled))) = 0
  /\ promise (runXHR r [AbortEvent]) = abort_failure
  /\ xhr (this (runXHR r [AbortEvent])) = None.
Proof.
  unfold requestByFetchApi, fetchTasks, runXHR, requestByXHR.
  destruct (0 <? timeout r); cbn -[finallyFetch];
    (split; [reflexivity|]); (split; [apply finallyFetch_clears|]);
    split; reflexivity.
Qed.

(** X8.  On the fetch transport a failure of the network operation itself
    is handed on as it is, not turned into a request error: the request
    rejects with it, and the generic entry reports it with [error], then
    [complete], and rejects with it, as long as the observers of these
    two notifications return. *)
Theorem network_failure_is_passed_on (url : string) (data : JsVal)
    (o : RequestOptions.t) (err : JsError) (events : list XhrEvent) :
  Window.has_fetch window = true -> RequestOptions.useXHR o <> Some true ->
  let req := new_Request url data o in
  let net := mkNetwork (Some (NetworkFails err)) events in
  snd (request req net) = Rejected err
  /\ (observers (OnError err req) = None ->
      observers (OnComplete (Some err) JNull req) = None ->
      fetch url data o net
      = ([OnError err req; OnComplete (Some err) JNull req], Rejected err)).
Proof.
  intros Hf Hx req net.
  assert (Hux : useXHR req = false).
  { subst req. rewrite new_Request_eq. cbn [useXHR].
    destruct (RequestOptions.useXHR o) as [[|]|]; try reflexivity. congruence. }
  assert (Hr : snd (request req net) = Rejected err).
  { unfold request. rewrite Hf, Hux. cbn [andb negb fetch_first net].
    unfold requestByFetchApi, fetchTasks.
    destruct (0 <? timeout req); reflexivity. }
  split; [exact Hr|].
  intros He Hc. unfold fetch. fold req. rewrite Hr.
  cbn [promise_then promise_catch]. unfold fire. rewrite He. cbn [fst snd].
  rewrite Hc. reflexivity.
Qed.

(** ** Settlement and cleanup *)

Lemma onFetchLoad_cleans r res :
  fst (onFetchLoad r res) = finallyFetch r /\ snd (onFetchLoad r res) <> Unsettled.
Proof.
  unfold onFetchLoad. cbv zeta.
  destruct (status_is_exceptional (Response.status res)).
  - destruct (get_prop _ "errormsg"); cbn [bind]; [|split; [reflexivity|discriminate]].
    destruct (get_prop _ "errorcode"); cbn [bind]; [|split; [reflexivity|discriminate]].
    destruct (new_RequestError _ _ _ _); cbn [bind]; split;
      try reflexivity; discriminate.
  - cbn. destruct (parseResponse _ _); split; try reflexivity; discriminate.
Qed.

(** X9.  Whatever happens first on the fetch transport settles the call
    and leaves no timer handle behind; a response settles it even when
    its body cannot be read or is [null].  The one event that settles
    nothing is a timer firing when no timeout was set, which cannot
    happen. *)
Theorem fetch_transport_settles_and_clears (r : Request) (ev : FetchEvent) :
  match snd (requestByFetchApi r (Some ev)) with
  | Unsettled => ev = TimerFires /\ timeout r <= 0
  | _ => fetchTimeoutTimer (fst (requestByFetchApi r (Some ev))) = 0
  end.
Proof.
  unfold requestByFetchApi, fetchTasks.
  destruct (Z.ltb_spec 0 (timeout r)) as [Hlt|Hle]; cbv zeta; cbn [createFetchTimeout].
  - destruct ev as [res|err| |]; cbn -[onFetchLoad finallyFetch].
    + destruct (onFetchLoad_cleans
                  (assign_fetchTimeoutTimer (Window.timer_handle window) r) res)
        as [H1 H2].
      rewrite H1. destruct (snd (onFetchLoad _ res)); try contradiction;
        apply finallyFetch_clears.
    + apply finallyFetch_clears.
    + apply finallyFetch_clears.
    + apply finallyFetch_clears.
  - destruct ev as [res|err| |]; cbn -[onFetchLoad finallyFetch].
    + destruct (onFetchLoad_cleans r res) as [H1 H2].
      rewrite H1. destruct (snd (onFetchLoad _ res)); try contradiction;
        apply finallyFetch_clears.
    + apply finallyFetch_clears.
    + split; [reflexivity | exact Hle].
    + apply finallyFetch_clears.
Qed.

Lemma finallyXHR_released r : xhr (finallyXHR r) = None.
Proof. unfold finallyXHR. destruct (xhr r) eqn:H; [reflexivity | exact H]. Qed.

Lemma fixed_handlers_release c :
  xhr (this (onXHRError c)) = None
  /\ xhr (this (onXHRAbort c)) = None
  /\ xhr (this (onXHRTimeout c)) = None.
Proof.
  unfold onXHRError, onXHRAbort, onXHRTimeout.
  cbn [new_RequestError js_to_string bind this].
  repeat split; apply finallyXHR_released.
Qed.

(** A legacy call is either still open, with nothing settled and nothing
    thrown, or released. *)
Lemma open_or_released r events :
  let c := runXHR r events in
  (promise c = Unsettled /\ uncaught c = None) \/ xhr (this c) = None.
Proof.
  unfold runXHR. rewrite <- fold_left_rev_right.
  induction (rev events) as [|ev evs IH]; cbn [fold_right].
  - left. split; reflexivity.
  - destruct IH as [[Hp Hu] | Hr].
    + set (c := fold_right _ _ evs) in *.
      unfold dispatchEvent. destruct (xhr (this c)) as [x|] eqn:Hx;
        [|right; exact Hx].
      destruct ev as [rs st stt txt| | |].
      * destruct (XHR.onload x); [|left; split; assumption].
        unfold onXHRLoad. cbn [this xhr assign_xhr promise uncaught].
        destruct (XHR.readyState _ =? 4); [|left; split; assumption].
        cbn [finallyXHR xhr assign_xhr].
        match goal with
        | |- context [match ?s with Normal _ => _ | Throw _ => _ end] => destruct s
        end; right; reflexivity.
      * destruct (XHR.onerror x); [|left; split; assumption].
        right. apply fixed_handlers_release.
      * destruct (XHR.onabort x); [|left; split; assumption].
        right. apply fixed_handlers_release.
      * destruct (XHR.ontimeout x); [|left; split; assumption].
        right. apply fixed_handlers_release.
    + right. rewrite dispatch_released by exact Hr. exact Hr.
Qed.

(** X10.  A legacy call settles at most once and cleans up when it does:
    as soon as its promise is settled, or an exception has left a
    handler, the operation is released with all handlers detached, and
    from then on no event changes anything of the call. *)
Theorem xhr_call_settles_once (r : Request) (events : list XhrEvent) :
  let c := runXHR r events in
  (promise c = Unsettled /\ uncaught c = None \/ xhr (this c) = None)
  /\ (forall more,
        promise c <> Unsettled \/ uncaught c <> None ->
        runXHR r (events ++ more) = c).
Proof.
  intros c. pose proof (open_or_released r events) as H. cbv zeta in H. fold c in H.
  split; [exact H|].
  intros more Hs.
  assert (Hr : xhr (this c) = None).
  { destruct H as [[Hp Hu] | Hr]; [|exact Hr].
    destruct Hs as [Hs | Hs]; contradiction. }
  unfold runXHR. rewrite fold_left_app. apply released_stays. exact Hr.
Qed.

Lemma dispatch_forgets_response ev c1 c2 :
  forget_response c1 = forget_response c2 ->
  forget_response (dispatchEvent ev c1) = forget_response (dispatchEvent ev c2).
Proof.
  destruct c1 as [[u1 d1 ty1 dt1 h1 m1 t1 ux1 co1 cr1 pa1 x1 ft1] p1 un1].
  destruct c2 as [[u2 d2 ty2 dt2 h2 m2 t2 ux2 co2 cr2 pa2 x2 ft2] p2 un2].
  intros H. unfold forget_response in H.
  cbn [this promise uncaught xhr assign_xhr
    _url _data _type _dataType headers method timeout useXHR cors credentials
    parse fetchTimeoutTimer] in H.
  injection H as Hu Hd Hty Hdt Hh Hm Ht Hux Hco Hcr Hpa Hx Hft Hp Hun.
  subst.
  destruct x1 as [[wc1 op1 rh1 to1 oe1 oa1 ot1 ol1 pl1 se1 rs1 st1 stt1 txt1]|],
           x2 as [[wc2 op2 rh2 to2 oe2 oa2 ot2 ol2 pl2 se2 rs2 st2 stt2 txt2]|];
    cbn in Hx; try discriminate; [|reflexivity].
  injection Hx as Hwc Hop Hrh Hto Hoe Hoa Hot Hol Hpl Hse. subst.
  unfold dispatchEvent. cbn [this xhr promise uncaught].
  destruct ev as [rs st stt txt| | |];
    cbn [XHR.onload XHR.onerror XHR.onabort XHR.ontimeout].
  - destruct ol2; [|reflexivity].
    unfold onXHRLoad.
    cbn [this xhr promise uncaught assign_xhr XHR.complete XHR.readyState
         XHR.responseText XHR.status XHR.statusText finallyXHR
         _url _data _type _dataType headers method timeout useXHR cors credentials
         parse fetchTimeoutTimer].
    destruct (rs =? 4); [|reflexivity].
    unfold assign_xhr.
    cbn [_url _data _type _dataType headers method timeout useXHR cors credentials
         parse fetchTimeoutTimer].
    match goal with
    | |- forget_response (match ?s with Normal _ => _ | Throw _ => _ end) = _ =>
        destruct s
    end; reflexivity.
  - destruct oe2; reflexivity.
  - destruct oa2; reflexivity.
  - destruct ot2; reflexivity.
Qed.

Lemma events_forget_response events c1 c2 :
  forget_response c1 = forget_response c2 ->
  forget_response (fold_left (fun c ev => dispatchEvent ev c) events c1)
  = forget_response (fold_left (fun c ev => dispatchEvent ev c) events c2).
Proof.
  revert c1 c2. induction events as [|ev events IH]; intros c1 c2 H; cbn [fold_left].
  - exact H.
  - apply IH. apply dispatch_forgets_response. exact H.
Qed.

(** X11.  A [load] that arrives before the operation has reached ready
    state 4 is ignored: nothing is settled, nothing is cleaned up, and
    whatever events follow settle the call exactly as if that [load] had
    never been delivered. *)
Theorem early_load_is_ignored (r : Request) (readyState status : Z)
    (statusText text : string) (events : list XhrEvent) :
  readyState <> 4 ->
  promise (runXHR r [LoadEvent readyState status statusText text]) = Unsettled
  /\ promise (runXHR r (LoadEvent readyState status statusText text :: events))
     = promise (runXHR r events)
  /\ uncaught (runXHR r (LoadEvent readyState status statusText text :: events))
     = uncaught (runXHR r events).
Proof.
  intros Hrs.
  assert (Hneq : (readyState =? 4) = false) by (apply Z.eqb_neq; exact Hrs).
  assert (Hfirst : forget_response
                     (dispatchEvent (LoadEvent readyState status statusText text)
                        (requestByXHR r))
                   = forget_response (requestByXHR r)).
  { unfold dispatchEvent, requestByXHR, onXHRLoad.
    cbn [this xhr promise uncaught assign_xhr XHR.onload XHR.complete XHR.readyState].
    rewrite Hneq. reflexivity. }
  split.
  { unfold runXHR. cbn [fold_left].
    change (promise (forget_response
                       (dispatchEvent (LoadEvent readyState status statusText text)
                          (requestByXHR r))) = Unsettled).
    rewrite Hfirst. reflexivity. }
  pose proof (events_forget_response events _ _ Hfirst) as H.
  unfold runXHR. cbn [fold_left].
  split.
  - change (promise (forget_response
                       (fold_left (fun c ev => dispatchEvent ev c) events
                          (dispatchEvent (LoadEvent readyState status statusText text)
                             (requestByXHR r))))
            = promise (forget_response
                         (fold_left (fun c ev => dispatchEvent ev c) events
                            (requestByXHR r)))).
    rewrite H. reflexivity.
  - change (uncaught (forget_response
                        (fold_left (fun c ev => dispatchEvent ev c) events
                           (dispatchEvent (LoadEvent readyState status statusText text)
                              (requestByXHR r))))
            = uncaught (forget_response
                          (fold_left (fun c ev => dispatchEvent ev c) events
                             (requestByXHR r)))).
    rewrite H. reflexivity.
Qed.

(** ** What a load resolves with *)

(** On a successful status both load handlers settle as the normaliser
    does, whatever the body. *)
Lemma onFetchLoad_ok r res :
  status_is_exceptional (Response.status res) = false ->
  snd (onFetchLoad r res) = resolve_or_reject (parseResponse r (parseFetchData r res)).
Proof.
  intros Hok. unfold onFetchLoad. cbv zeta. rewrite Hok.
  destruct (finallyFetch_frame r) as [Hd Hp]. cbn [snd].
  unfold parseFetchData. rewrite Hd.
  rewrite (parseResponse_ext (finallyFetch r) r) by assumption. reflexivity.
Qed.

Lemma onXHRLoad_ok r status statusText text body :
  xhr_body r text body -> status_is_exceptional status = false ->
  promise (dispatchEvent (LoadEvent 4 status statusText text) (requestByXHR r))
  = resolve_or_reject (parseResponse r body).
Proof.
  intros Hb Hok. unfold xhr_body in Hb.
  unfold dispatchEvent, requestByXHR, onXHRLoad.
  cbn [this promise uncaught xhr assign_xhr XHR.onload XHR.complete XHR.readyState
       XHR.responseText XHR.status XHR.statusText finallyXHR _dataType parse].
  cbn [Z.eqb Pos.eqb]. rewrite Hok.
  destruct (_dataType r) eqn:Hd.
  - destruct Hb as [[-> ->] | [Hne Hp]].
    + cbn [String.eqb negb bind settle].
      reflexivity.
    + destruct (String.eqb_spec text ""); [contradiction|].
      cbn [negb]. rewrite Hp. cbn [bind settle].
      reflexivity.
  - rewrite Hb. cbn [bind settle]. reflexivity.
Qed.

(** X12.  A call of data type [text] never interprets the body: on a
    successful status it resolves with the text as received (the empty
    string when the fetch response cannot be read as text), whatever
    parser the call or the module has and whatever the text looks
    like. *)
Theorem text_call_resolves_with_raw_text (r : Request) (status : Z)
    (statusText : string) :
  _dataType r = RequestDataType.text ->
  200 <= status < 300 \/ status = 304 ->
  (forall res, Response.status res = status ->
     snd (onFetchLoad r res) = Resolved (JStr (default "" (Response.text res))))
  /\ (forall text,
        promise (dispatchEvent (LoadEvent 4 status statusText text) (requestByXHR r))
        = Resolved (JStr text)).
Proof.
  intros Hd Hok. apply status_is_exceptional_spec in Hok.
  assert (Hraw : forall v, parseResponse r v = Normal v).
  { intros v. unfold parseResponse. rewrite Hd. reflexivity. }
  split.
  - intros res <-. rewrite onFetchLoad_ok by exact Hok. rewrite Hraw.
    unfold parseFetchData, parseFetchTextData. rewrite Hd.
    destruct (Response.text res); reflexivity.
  - intros text. rewrite (onXHRLoad_ok r status statusText text (JStr text)).
    + rewrite Hraw. reflexivity.
    + unfold xhr_body. rewrite Hd. reflexivity.
    + exact Hok.
Qed.

Lemma falsy_converts v : truthy v = false -> exists m, js_to_string v = Normal m.
Proof.
  destruct v as [| |[|]| | | |]; cbn; intros H; try discriminate; eauto.
Qed.

(** X13.  On an exceptional status the HTTP status decides, not the body's
    contract: a body that carries no truthy [errormsg] and [errorcode]
    (a standard response with [success], [errorMessage] and [errorCode]
    included, or a text) rejects with the status, the status as a string
    for code, and the status text, or the generic message when the status
    text is empty, for message.  No parser is consulted. *)
Theorem exceptional_status_overrides_body (r : Request) (status : Z)
    (statusText : string) (body : JsVal) :
  ~ (200 <= status < 300 \/ status = 304) ->
  body <> JNull -> body <> JUndefined ->
  truthy (member body "errormsg") = false ->
  truthy (member body "errorcode") = false ->
  let failure :=
    Rejected (ReqError
                {| RequestError.status := JNum status;
                   RequestError.code := JStr (pretty status);
                   RequestError.message :=
                     if String.eqb statusText "" then REQUEST_ERROR_MSG
                     else statusText;
                   RequestError.stack := None |}) in
  (forall res, Response.status res = status -> Response.statusText res = statusText ->
     parseFetchData r res = body ->
     snd (onFetchLoad r res) = failure)
  /\ (forall text, xhr_body r text body ->
        promise (dispatchEvent (LoadEvent 4 status statusText text) (requestByXHR r))
        = failure).
Proof.
  intros Hbad Hn Hu Hmsg Hcode failure.
  assert (Hex : status_is_exceptional status = true).
  { destruct (status_is_exceptional status) eqn:He; [reflexivity|].
    apply status_is_exceptional_spec in He. contradiction. }
  destruct (falsy_converts _ Hmsg) as [m Hm].
  assert (Hfail : Rejected (ReqError (status_failure status body
                                        (chosen_message statusText body m)))
                  = failure).
  { unfold failure, status_failure, chosen_message, js_or. rewrite Hmsg, Hcode.
    destruct (String.eqb statusText ""); reflexivity. }
  split.
  - intros res <- <- Hb.
    rewrite (onFetchLoad_settles r res m); rewrite ?Hb; try assumption.
    rewrite Hex. exact Hfail.
  - intros text Hb.
    destruct (onXHRLoad_settles r status statusText text body m Hb Hn Hu Hm) as [-> _].
    rewrite Hex. exact Hfail.
Qed.

Lemma fill_lookup k missing v props :
  assoc_get k (fill k missing v props)
  = if missing (default JUndefined (assoc_get k props)) then Some v
    else assoc_get k props.
Proof.
  unfold fill. destruct (missing _); [apply assoc_get_set_eq | reflexivity].
Qed.

(** The members of a conforming body after the default parser has filled
    it in. *)
Lemma defaultParseResponse_members props :
  assoc_get "hasOwnProperty" props = None ->
  is_Some (assoc_get "success" props) -> is_Some (assoc_get "data" props) ->
  exists filled,
    defaultParseResponse (JObj props) = Normal (JObj filled)
    /\ assoc_get "hasOwnProperty" filled = None
    /\ assoc_get "success" filled = assoc_get "success" props
    /\ assoc_get "data" filled = assoc_get "data" props
    /\ assoc_get "statusCode" filled
       = Some (let sc := member (JObj props) "statusCode" in
               if truthy sc then sc else JNum 200)
    /\ assoc_get "errorCode" filled
       = Some (let ec := member (JObj props) "errorCode" in
               if truthy ec then ec else JNum 0)
    /\ assoc_get "errorMessage" filled
       = Some (let em := member (JObj props) "errorMessage" in
               if is_undefined em then JNull else em)
    /\ assoc_get "errorStack" filled
       = Some (let es := member (JObj props) "errorStack" in
               if is_undefined es then JNull else es).
Proof.
  intros Hh Hs Hd. eexists. split; [apply defaultParseResponse_object; assumption|].
  cbn [member get_prop].
  assert (Hget : forall k (missing : JsVal -> bool) v p,
             missing JUndefined = true ->
             assoc_get k (fill k missing v p)
             = Some (if missing (default JUndefined (assoc_get k p)) then v
                     else default JUndefined (assoc_get k p))).
  { intros k missing v p Hmiss. rewrite fill_lookup.
    destruct (assoc_get k p) as [x|]; cbn [default from_option id].
    - destruct (missing x); reflexivity.
    - rewrite Hmiss. reflexivity. }
  split; [rewrite !fill_other by discriminate; exact Hh|].
  split; [rewrite !fill_other by discriminate; reflexivity|].
  split; [rewrite !fill_other by discriminate; reflexivity|].
  split; [|split; [|split]].
  - rewrite !(fill_other _ "statusCode") by discriminate.
    rewrite Hget by reflexivity. unfold falsy.
    destruct (truthy _); reflexivity.
  - rewrite !(fill_other _ "errorCode") by discriminate.
    rewrite Hget by reflexivity. rewrite fill_other by discriminate. unfold falsy.
    destruct (truthy _); reflexivity.
  - rewrite !(fill_other _ "errorMessage") by discriminate.
    rewrite Hget by reflexivity. rewrite !fill_other by discriminate. reflexivity.
  - rewrite Hget by reflexivity. rewrite !fill_other by discriminate. reflexivity.
Qed.



(** X16.  A successful response without a body is no failure: with the
    default parser a JSON call whose fetch response cannot be read as
    JSON, or whose legacy response text is empty, resolves with an empty
    object. *)
Theorem empty_body_resolves_to_empty_object (r : Request) (status : Z)
    (statusText : string) :
  _dataType r = RequestDataType.json -> parse r = None ->
  responseParseFunction = None ->
  200 <= status < 300 \/ status = 304 ->
  (forall res, Response.status res = status -> Response.json res = None ->
     snd (onFetchLoad r res) = Resolved (JObj []))
  /\ promise (dispatchEvent (LoadEvent 4 status statusText "") (requestByXHR r))
     = Resolved (JObj []).
Proof.
  intros Hdt Hp Hg Hok. apply status_is_exceptional_spec in Hok.
  assert (Hparse : parseResponse r (JObj []) = Normal (JObj [])).
  { apply unwrapped_object_resolves_to_itself; try assumption; [reflexivity|].
    left. reflexivity. }
  split.
  - intros res <- Hj. rewrite onFetchLoad_ok by exact Hok.
    unfold parseFetchData, parseFetchJSONData. rewrite Hdt, Hj, Hparse. reflexivity.
  - rewrite (onXHRLoad_ok r status statusText "" (JObj [])); try assumption.
    + rewrite Hparse. reflexivity.
    + apply xhr_load_empty_text. exact Hdt.
Qed.

(** ** The default parser as a normaliser *)

Lemma assoc_set_same k v props :
  assoc_get k props = Some v -> assoc_set k v props = props.
Proof.
  induction props as [|[k' v'] rest IH]; cbn [assoc_get assoc_set]; [discriminate|].
  destruct (String.eqb_spec k k') as [->|Hne].
  - intros [= ->]. reflexivity.
  - intros H. rewrite IH by exact H. reflexivity.
Qed.

Lemma fill_present k missing v props x :
  assoc_get k props = Some x -> missing x = false \/ x = v ->
  fill k missing v props = props.
Proof.
  intros Hk [Hm | ->]; unfold fill; rewrite Hk; cbn [default from_option id].
  - rewrite Hm. reflexivity.
  - destruct (missing v); [apply assoc_set_same; exact Hk | reflexivity].
Qed.

Lemma standard_response_is_fixed props :
  standard_response props -> defaultParseResponse (JObj props) = Normal (JObj props).
Proof.
  intros (Hh & Hs & Hd & (sc & Hsc & Tsc) & (ec & Hec & Tec) & (em & Hem & Nem)
          & (es & Hes & Nes)).
  rewrite defaultParseResponse_object by assumption.
  rewrite (fill_present "statusCode" falsy _ props sc Hsc)
    by (left; unfold falsy; rewrite Tsc; reflexivity).
  rewrite (fill_present "errorCode" falsy _ props ec Hec)
    by (destruct Tec as [T | ->]; [left; unfold falsy; rewrite T; reflexivity
                                  | right; reflexivity]).
  rewrite (fill_present "errorMessage" is_undefined _ props em Hem)
    by (left; destruct em; try reflexivity; contradiction).
  rewrite (fill_present "errorStack" is_undefined _ props es Hes)
    by (left; destruct es; try reflexivity; contradiction).
  reflexivity.
Qed.

Lemma wrapped_is_standard body :
  standard_response [("success", JBool true); ("statusCode", JNum 200);
                     ("errorCode", JNum 0); ("errorMessage", JNull);
                     ("errorStack", JNull); ("data", body)].
Proof.
  unfold standard_response. cbn.
  repeat split; eauto; eexists; (split; [reflexivity|]); eauto; discriminate.
Qed.

(** X17.  Whatever the default parser returns is a standard response: an
    object with [success] and [data], a truthy [statusCode], an
    [errorCode] that is truthy or 0, and [errorMessage] and [errorStack]
    not undefined.  The parser leaves such an object as it is, so parsing
    twice is parsing once. *)
Theorem default_parser_normalises (body rd : JsVal) :
  defaultParseResponse body = Normal rd ->
  (exists props, rd = JObj props /\ standard_response props)
  /\ defaultParseResponse rd = Normal rd.
Proof.
  intros H.
  assert (Hstd : exists props, rd = JObj props /\ standard_response props).
  { destruct body as [| | b | n | s | items | props];
      try discriminate H;
      try (cbn in H; injection H as <-; eexists; split;
           [reflexivity | apply wrapped_is_standard]).
    destruct (assoc_get "hasOwnProperty" props) eqn:Hh.
    { unfold defaultParseResponse in H. cbn [hasOwnProperty] in H.
      rewrite Hh in H. discriminate H. }
    destruct (assoc_get "success" props) as [s|] eqn:Hs;
      [destruct (assoc_get "data" props) as [d|] eqn:Hd|].
    - destruct (defaultParseResponse_members props Hh)
        as (filled & Hp & Hfh & Hfs & Hfd & Hsc & Hec & Hem & Hes);
        [rewrite Hs; eauto | rewrite Hd; eauto |].
      rewrite Hp in H. injection H as <-. exists filled. split; [reflexivity|].
      unfold standard_response. rewrite Hfh, Hfs, Hfd, Hs, Hd, Hsc, Hec, Hem, Hes.
      cbv zeta.
      repeat split; eauto; eexists; (split; [reflexivity|]).
      + destruct (truthy (member (JObj props) "statusCode")) eqn:T;
          [exact T | reflexivity].
      + destruct (truthy (member (JObj props) "errorCode")) eqn:T;
          [left; exact T | right; reflexivity].
      + destruct (member (JObj props) "errorMessage"); discriminate.
      + destruct (member (JObj props) "errorStack"); discriminate.
    - rewrite defaultParseResponse_wraps in H; try discriminate.
      + injection H as <-. eexists. split; [reflexivity | apply wrapped_is_standard].
      + intros ? [= <-]. split; [exact Hh | right; exact Hd].
    - rewrite defaultParseResponse_wraps in H; try discriminate.
      + injection H as <-. eexists. split; [reflexivity | apply wrapped_is_standard].
      + intros ? [= <-]. split; [exact Hh | left; exact Hs]. }
  split; [exact Hstd|].
  destruct Hstd as (props & -> & Hp). apply standard_response_is_fixed. exact Hp.
Qed.

(** ** The absolute-URL pattern as a prefix test *)

Lemma match_literal_i_app p q s :
  match_literal_i (p ++ q) s
  = match match_literal_i p s with
    | Some rest => match_literal_i q rest
    | None => None
    end.
Proof.
  revert s. induction p as [|a p IH]; intros s; [reflexivity|].
  change (String a p ++ q) with (String a (p ++ q)). cbn [match_literal_i].
  destruct s as [|b s]; [reflexivity|].
  destruct (Ascii.eqb _ _); [apply IH | reflexivity].
Qed.

(** The pattern accepts exactly the strings that begin with two slashes,
    with or without a scheme [http:] or [https:] in front, in any letter
    case. *)
Lemma ABSOLUTE_PATH_REG_accepts s :
  is_Some (ABSOLUTE_PATH_REG s) <-> has_absolute_prefix s = true.
Proof.
  unfold ABSOLUTE_PATH_REG, has_absolute_prefix, has_prefix_i, after_scheme.
  change "http://" with ("http" ++ ":" ++ "//").
  change "https://" with ("http" ++ "s" ++ ":" ++ "//").
  rewrite !match_literal_i_app.
  destruct (match_literal_i "http" s) as [r1|]; rewrite ?match_literal_i_app.
  - destruct (match_literal_i "s" r1) as [r2|]; rewrite ?match_literal_i_app;
      [destruct (match_literal_i ":" r2) as [r3|]|];
      destruct (match_literal_i ":" r1) as [r4|];
      unfold option_list; cbn [option_rect from_option app slashes_then_group];
      repeat match goal with
             | |- context [match_literal_i "//" ?x] =>
                 destruct (match_literal_i "//" x); cbn [slashes_then_group orb]
             end;
      split; intros H; try reflexivity; try (rewrite lazy_dot_star_accepts; eexists; reflexivity); try discriminate H;
      destruct H; discriminate.
  - cbn [app slashes_then_group].
    destruct (match_literal_i "//" s); cbn [orb];
      split; intros H; try reflexivity; try (rewrite lazy_dot_star_accepts; eexists; reflexivity); try discriminate H;
      destruct H; discriminate.
Qed.

Lemma has_prefix_i_app p u c t :
  avoids c p = true -> has_prefix_i p (u ++ String c t) = has_prefix_i p u.
Proof.
  unfold has_prefix_i. revert u.
  induction p as [|a p IH]; intros u Ha; [reflexivity|].
  cbn [avoids] in Ha. apply andb_prop in Ha as [Hac Hp].
  destruct u as [|b u].
  - change ("" ++ String c t) with (String c t). cbn [match_literal_i].
    apply negb_true_iff in Hac. rewrite Hac. reflexivity.
  - change (String b u ++ String c t) with (String b (u ++ String c t)).
    cbn [match_literal_i].
    destruct (Ascii.eqb (to_lower a) (to_lower b)); [apply IH; exact Hp | reflexivity].
Qed.

Lemma has_absolute_prefix_app u t :
  has_absolute_prefix (u ++ String "?" t) = has_absolute_prefix u.
Proof.
  unfold has_absolute_prefix. rewrite !has_prefix_i_app by reflexivity. reflexivity.
Qed.

(** A query string appended to the URL does not change its prefix. *)
Lemma resolveURL_prefix r url data :
  has_absolute_prefix (resolveURL r url data) = has_absolute_prefix url.
Proof.
  unfold resolveURL. destruct (isQuery r && truthy data); [|reflexivity].
  generalize (match data with JStr s => s | _ => qs_stringify data end) as q.
  intros [|c q]; cbn [starts_with_question].
  - apply has_absolute_prefix_app.
  - destruct (Ascii.eqb_spec c "?") as [->|_]; apply has_absolute_prefix_app.
Qed.

Lemma crosses_origin_prefix s :
  crosses_origin s
  = has_absolute_prefix s && negb (String.eqb "" (Window.hostname window)).
Proof.
  unfold crosses_origin.
  pose proof (ABSOLUTE_PATH_REG_accepts s) as [Hto Hfrom].
  destruct (ABSOLUTE_PATH_REG s) as [d|] eqn:Hd.
  - rewrite Hto by eauto. apply ABSOLUTE_PATH_REG_captures_nothing in Hd.
    subst d. reflexivity.
  - destruct (has_absolute_prefix s); [|reflexivity].
    destruct (Hfrom eq_refl) as [? [=]].
Qed.

(** X18.  The pattern that classifies a URL matches exactly the strings
    beginning with [//], [http://] or [https://], in any letter case, and
    its capture group is then always empty: no host name is ever read
    from the URL. *)
Theorem absolute_pattern_is_a_prefix_test (s : string) :
  ABSOLUTE_PATH_REG s = if has_absolute_prefix s then Some "" else None.
Proof.
  pose proof (ABSOLUTE_PATH_REG_accepts s) as [Hto Hfrom].
  destruct (ABSOLUTE_PATH_REG s) as [d|] eqn:Hd.
  - rewrite Hto by eauto. apply ABSOLUTE_PATH_REG_captures_nothing in Hd.
    subst d. reflexivity.
  - destruct (has_absolute_prefix s); [|reflexivity].
    destruct (Hfrom eq_refl) as [? [=]].
Qed.

(** X19.  What the constructor decides about the origin, in terms of the
    caller's URL: on a page with a host name, the call is cross-origin
    exactly when the URL begins with [//], [http://] or [https://],
    whatever its host and whatever query string is appended; a
    cross-origin call sends credentials only when the caller asks for
    them, every other call always does, and both transports are set up
    accordingly. *)
Theorem cross_origin_is_decided_by_prefix (url : string) (data : JsVal)
    (o : RequestOptions.t) :
  let r := new_Request url data o in
  cors r = has_absolute_prefix url && negb (String.eqb "" (Window.hostname window))
  /\ credentials r
     = (if cors r then default false (RequestOptions.credentials o) else true)
  /\ RequestInit.mode (fetchSettings r) = (if cors r then Some "cors" else None)
  /\ RequestInit.credentials (fetchSettings r)
     = (if credentials r then Some "include" else None)
  /\ XHR.withCredentials <$> xhr (this (requestByXHR r)) = Some (credentials r).
Proof.
  intros r. subst r. rewrite new_Request_eq. cbn [cors credentials _url].
  match goal with |- context [crosses_origin ?u0] => set (u := u0) end.
  assert (Hc : crosses_origin u
               = has_absolute_prefix url
                 && negb (String.eqb "" (Window.hostname window))).
  { subst u. rewrite crosses_origin_prefix, resolveURL_prefix. reflexivity. }
  repeat split.
  - exact Hc.
  - destruct (crosses_origin u); reflexivity.
Qed.

(** ** Notifications over a sequence of calls *)

(** What one call through [fetch] fires, by the way it settles, when no
    observer throws. *)
Lemma fetch_call_fires c :
  (forall n, observers n = None) ->
  let req := new_Request (call_url c) (call_data c) (call_options c) in
  fst (fetch_call c)
  = match snd (fetch_call c) with
    | Resolved d => [OnSuccess d req; OnComplete None d req]
    | Rejected e => [OnError e req; OnComplete (Some e) JNull req]
    | Unsettled => []
    end.
Proof.
  intros Hq req. unfold fetch_call.
  rewrite (fetch_quiet (call_url c) (call_data c) (call_options c) (call_network c) Hq).
  fold req. destruct (snd (request req (call_network c))); reflexivity.
Qed.

(** Whatever the observers do, one call fires [complete] no more often
    than [success] and [error] together. *)
Lemma fetch_call_bounded c :
  (count_fired "complete" (fst (fetch_call c))
   <= count_fired "success" (fst (fetch_call c))
      + count_fired "error" (fst (fetch_call c)))%nat.
Proof.
  unfold fetch_call, fetch.
  destruct (snd (request _ (call_network c))) as [d|e|];
    cbn [promise_then promise_catch]; unfold fire;
    repeat (match goal with
            | |- context [observers ?n] => destruct (observers n)
            end; cbn [fst snd resolve_or_reject promise_catch app]);
    cbn; lia.
Qed.

Lemma count_fired_app type l1 l2 :
  count_fired type (l1 ++ l2)%list
  = (count_fired type l1 + count_fired type l2)%nat.
Proof. unfold count_fired. rewrite List.filter_app, List.length_app. reflexivity. Qed.

(** X20.  Over any sequence of calls through [fetch], the emitter is asked
    to fire [complete] no more often than [success] and [error] together,
    whatever the observers do.  When no observer throws, it is asked to
    fire [success] once per call that resolved, [error] once per call
    that rejected, and [complete] once per call that settled: the number
    of [complete] notifications is the sum of the other two. *)
Theorem completions_count_settled_calls (calls : list Call) :
  (count_fired "complete" (fired_by calls)
   <= count_fired "success" (fired_by calls)
      + count_fired "error" (fired_by calls))%nat
  /\ ((forall n, observers n = None) ->
      count_fired "success" (fired_by calls)
      = length (List.filter (fun c => is_resolved (fetch_call c)) calls)
      /\ count_fired "error" (fired_by calls)
         = length (List.filter (fun c => is_rejected (fetch_call c)) calls)
      /\ count_fired "complete" (fired_by calls)
         = (count_fired "success" (fired_by calls)
            + count_fired "error" (fired_by calls))%nat).
Proof.
  split.
  - induction calls as [|c calls IH]; [cbn; lia|].
    unfold fired_by in *. cbn [map concat]. rewrite !count_fired_app.
    pose proof (fetch_call_bounded c). lia.
  - intros Hq.
    induction calls as [|c calls (IHs & IHe & IHc)]; [repeat split|].
    unfold fired_by in *. cbn [map concat List.filter].
    rewrite !count_fired_app, IHc, IHs, IHe.
    rewrite (fetch_call_fires c Hq). unfold is_resolved, is_rejected.
    destruct (snd (fetch_call c)); cbn; repeat split; lia.
Qed.

(** ** What the handlers leave alone *)

Lemma finallyXHR_frame r :
  _dataType (finallyXHR r) = _dataType r /\ parse (finallyXHR r) = parse r.
Proof. unfold finallyXHR. destruct (xhr r); split; reflexivity. Qed.

Lemma fetchTasks_frame r :
  _dataType (fst (fetchTasks r)) = _dataType r /\ parse (fst (fetchTasks r)) = parse r.
Proof.
  unfold fetchTasks, createFetchTimeout. destruct (0 <? timeout r); split; reflexivity.
Qed.

(** No event changes the data type or the parser of the call. *)
Lemma dispatchEvent_frame ev c :
  _dataType (this (dispatchEvent ev c)) = _dataType (this c)
  /\ parse (this (dispatchEvent ev c)) = parse (this c).
Proof.
  unfold dispatchEvent. destruct (xhr (this c)) as [x|] eqn:Hx; [|split; reflexivity].
  destruct ev as [rs st stt txt| | |].
  - destruct (XHR.onload x); [|split; reflexivity].
    unfold onXHRLoad. cbn [this xhr assign_xhr promise uncaught].
    destruct (_ =? 4); [|split; reflexivity].
    match goal with
    | |- context [match ?s with Normal _ => _ | Throw _ => _ end] => destruct s
    end; cbn [this]; unfold finallyXHR; cbn [xhr assign_xhr _dataType parse];
      split; reflexivity.
  - destruct (XHR.onerror x); [|split; reflexivity].
    unfold onXHRError. cbn. apply finallyXHR_frame.
  - destruct (XHR.onabort x); [|split; reflexivity].
    unfold onXHRAbort. cbn. apply finallyXHR_frame.
  - destruct (XHR.ontimeout x); [|split; reflexivity].
    unfold onXHRTimeout. cbn. apply finallyXHR_frame.
Qed.

End RequestClass.

(** * The model at concrete inputs *)

Example js_to_string_examples :
  js_to_string (JArr [JNum 1; JNull; JStr "a"; JArr [JNum 2; JNum 3]])
  = Normal "1,,a,2,3"
  /\ js_to_string (JNum 404) = Normal "404"
  /\ js_to_string (JObj [("a", JNum 1)]) = Normal "[object Object]"
  /\ js_to_string (JObj [("toString", JNum 1)]) = Throw TypeError.
Proof. repeat split. Qed.

Example hasOwnProperty_examples :
  hasOwnProperty (JArr [JNum 7; JNum 8]) "1" = Normal true
  /\ hasOwnProperty (JArr [JNum 7; JNum 8]) "2" = Normal false
  /\ hasOwnProperty (JArr [JNum 7; JNum 8]) "length" = Normal true
  /\ hasOwnProperty (JStr "ab") "success" = Normal false
  /\ hasOwnProperty (JNum 5) "success" = Normal false
  /\ hasOwnProperty JNull "success" = Throw TypeError
  /\ hasOwnProperty (JObj [("hasOwnProperty", JBool true)]) "success" = Throw TypeError.
Proof. repeat split. Qed.

Example ABSOLUTE_PATH_REG_examples :
  ABSOLUTE_PATH_REG "http://localhost:8080/api" = Some ""
  /\ ABSOLUTE_PATH_REG "HTTPS://httpbin.org/get" = Some ""
  /\ ABSOLUTE_PATH_REG "//cdn.example.com/x" = Some ""
  /\ ABSOLUTE_PATH_REG "/api/user/1234" = None
  /\ ABSOLUTE_PATH_REG "ftp://example.com" = None.
Proof. repeat split. Qed.

(** The request of [get('/api/user/1234', {sex: 'M'})] on the demo page. *)
Example get_with_query_object :
  let r := new_Request demo_JSON_stringify demo_qs_stringify demo_window
             "/api/user/1234" (JObj [("sex", JStr "M")]) RequestOptions.empty in
  _url r = "/api/user/1234?sex=M" /\ _data r = JNull /\ cors r = false
  /\ credentials r = true
  /\ headers r !! "Accept" = Some "application/json"
  /\ headers r !! "Content-Type" = Some "application/json".
Proof. vm_compute. repeat split. Qed.

(** ** C1: a successful status does not always resolve *)

(** The response of the test server's [/api/user/digest?code=200]: status
    200 with a body that declares a failure.  The call rejects, with the
    status the body names. *)
Lemma successful_status_can_reject :
  let body := JObj [("success", JBool false); ("statusCode", JNum 500);
                    ("errorCode", JNum 500);
                    ("errorMessage", JStr "Internal Server Error");
                    ("data", JNull)] in
  let res := Response.mk 200 "OK" (Some body) None in
  let r := new_Request demo_JSON_stringify demo_qs_stringify demo_window
             "/api/user/digest" (JObj [("code", JNum 200)]) RequestOptions.empty in
  200 <= Response.status res < 300
  /\ _dataType r = RequestDataType.json
  /\ snd (request demo_JSON_parse demo_window None r
            (mkNetwork (Some (NetworkResponds res)) []))
     = Rejected (ReqError {| RequestError.status := JNum 500;
                             RequestError.code := JStr "500";
                             RequestError.message := "Internal Server Error";
                             RequestError.stack := None |})
  /\ (forall data,
        snd (request demo_JSON_parse demo_window None r
               (mkNetwork (Some (NetworkResponds res)) []))
        <> Resolved data).
Proof.
  cbv zeta. split; [cbn [Response.status]; lia|]. split; [reflexivity|].
  split; [vm_compute; reflexivity|].
  intros data. vm_compute. discriminate.
Qed.

Abbreviation demo_xhr_request :=
  (new_Request demo_JSON_stringify demo_qs_stringify demo_window
     "/api/notfound" JNull demo_xhr_options).

(** A 500 whose body carries [errormsg] and [errorcode], on the fetch
    transport. *)
Lemma load_settles_by_status_witness :
  let body := JObj [("errormsg", JStr "boom"); ("errorcode", JStr "E42")] in
  let res := Response.mk 500 "Internal Server Error" (Some body) None in
  body <> JNull /\ body <> JUndefined
  /\ js_to_string (member body "errormsg") = Normal "boom"
  /\ exists e,
       snd (onFetchLoad None demo_xhr_request res) = Rejected (ReqError e)
       /\ RequestError.status e = JNum 500
       /\ RequestError.message e = "boom"
       /\ RequestError.code e = JStr "E42".
Proof.
  cbv zeta. split; [discriminate|]. split; [discriminate|]. split; [reflexivity|].
  destruct (load_settles_by_status demo_JSON_parse None demo_xhr_request
              500 "Internal Server Error"
              (JObj [("errormsg", JStr "boom"); ("errorcode", JStr "E42")]) "boom")
    as [Hfetch _]; [discriminate | discriminate | reflexivity |].
  destruct (Hfetch (Response.mk 500 "Internal Server Error"
                      (Some (JObj [("errormsg", JStr "boom"); ("errorcode", JStr "E42")]))
                      None) eq_refl eq_refl eq_refl)
    as [_ Hbad].
  apply Hbad. lia.
Defined.

(** The error response of the test server, with a message and a code of
    its own, on status 500. *)
Lemma status_failure_ignores_error_message_witness :
  let props := [("success", JBool false); ("statusCode", JNum 500);
                ("errorCode", JStr "E42"); ("errorMessage", JStr "quota exceeded");
                ("data", JNull)] in
  let res := Response.mk 500 "Internal Server Error" (Some (JObj props)) None in
  _dataType demo_xhr_request = RequestDataType.json
  /\ ~ (200 <= 500 < 300 \/ 500 = 304)
  /\ assoc_get "errorMessage" props = Some (JStr "quota exceeded")
  /\ assoc_get "errorCode" props = Some (JStr "E42")
  /\ assoc_get "errormsg" props = None /\ assoc_get "errorcode" props = None
  /\ snd (onFetchLoad None demo_xhr_request res)
     = Rejected (ReqError {| RequestError.status := JNum 500;
                             RequestError.code := JStr "500";
                             RequestError.message := "Internal Server Error";
                             RequestError.stack := None |}).
Proof.
  cbv zeta. split; [reflexivity|]. split; [lia|].
  repeat (split; [reflexivity|]).
  destruct (status_failure_ignores_error_message demo_JSON_parse None demo_xhr_request
              500 "Internal Server Error"
              [("success", JBool false); ("statusCode", JNum 500);
               ("errorCode", JStr "E42"); ("errorMessage", JStr "quota exceeded");
               ("data", JNull)]
              (JStr "quota exceeded") (JStr "E42")
              eq_refl ltac:(lia) ltac:(discriminate)
              eq_refl eq_refl eq_refl eq_refl eq_refl eq_refl)
    as (Hf & _).
  exact (Hf (Response.mk 500 "Internal Server Error"
               (Some (JObj [("success", JBool false); ("statusCode", JNum 500);
                            ("errorCode", JStr "E42");
                            ("errorMessage", JStr "quota exceeded");
                            ("data", JNull)])) None)
            eq_refl eq_refl eq_refl).
Defined.

(** ** C2: the body [null] *)

(** C2 at the body [null].  The default parser does not wrap a [null]
    body: [null.hasOwnProperty] throws a TypeError, and a call whose
    response is the JSON text [null] with status 200 rejects with that
    TypeError on both transports instead of resolving with [null]. *)
Theorem null_body_is_not_wrapped :
  defaultParseResponse JNull = Throw TypeError
  /\ (forall JSON_stringify qs_stringify window url data,
        let r := new_Request JSON_stringify qs_stringify window url data
                   RequestOptions.empty in
        snd (onFetchLoad None r (Response.mk 200 "OK" (Some JNull) None))
        = Rejected TypeError)
  /\ demo_JSON_parse "null" = Some JNull
  /\ promise (dispatchEvent demo_JSON_parse None (LoadEvent 4 200 "OK" "null")
                (requestByXHR demo_xhr_request))
     = Rejected TypeError.
Proof.
  split; [reflexivity|]. split; [|split; reflexivity].
  intros JSON_stringify qs_stringify window url data r. subst r.
  rewrite new_Request_eq. reflexivity.
Qed.

(** ** C3: an absolute URL of the page's own host *)

(** C3 at an absolute same-host URL.  On a page of host [example.com] a
    call to [http://example.com/api/user/1234] is classified cross-origin
    and its credentials flag is not forced: the pattern's group captured
    the empty string, which is not the host name of the page. *)
Theorem same_host_absolute_url_is_cross_origin :
  let page := {| Window.hostname := "example.com"; Window.has_fetch := true;
                 Window.timer_handle := 1 |} in
  let url := "http://example.com/api/user/1234" in
  let r := new_Request demo_JSON_stringify demo_qs_stringify page url JNull
             RequestOptions.empty in
  ABSOLUTE_PATH_REG url = Some ""
  /\ cors r = true
  /\ credentials r = false
  /\ RequestInit.credentials (fetchSettings r) = None
  /\ RequestInit.mode (fetchSettings r) = Some "cors"
  /\ XHR.withCredentials <$> xhr (this (requestByXHR r)) = Some false.
Proof. vm_compute. repeat split. Qed.

(** ** C4: a form call with a caller-supplied [Content-Type] *)

(** A [form] call whose caller supplies a [Content-Type] header, or a
    [contentType] string, has a [Content-Type] header. *)
Lemma form_call_keeps_caller_content_type :
  let by_header :=
    new_Request demo_JSON_stringify demo_qs_stringify demo_window "/upload/image"
      (JObj []) (demo_form_options (Some {["Content-Type" := "text/plain"]}) None) in
  let by_option :=
    new_Request demo_JSON_stringify demo_qs_stringify demo_window "/upload/image"
      (JObj []) (demo_form_options None (Some (ContentTypeIs "multipart/form-data"))) in
  _type by_header = RequestType.form
  /\ headers by_header !! "Content-Type" = Some "text/plain"
  /\ _type by_option = RequestType.form
  /\ headers by_option !! "Content-Type" = Some "multipart/form-data".
Proof. vm_compute. repeat split. Qed.

Lemma form_call_content_type_witness :
  RequestOptions.type (demo_form_options (Some {["X-Mocha-TEST" := "v1.0.0"]}) None)
  = Some RequestType.form
  /\ (let r := new_Request demo_JSON_stringify demo_qs_stringify demo_window
                "/api/user" (JObj [])
                (demo_form_options (Some {["X-Mocha-TEST" := "v1.0.0"]}) None) in
      headers r !! "X-Mocha-TEST" = Some "v1.0.0"
      /\ headers r !! "Content-Type" = None).
Proof.
  split; [reflexivity|].
  destruct (form_call_content_type demo_JSON_stringify demo_qs_stringify demo_window
              "/api/user" (JObj [])
              (demo_form_options (Some {["X-Mocha-TEST" := "v1.0.0"]}) None) eq_refl)
    as (_ & Hwin & _ & _ & Hnone).
  split.
  - apply (Hwin {["X-Mocha-TEST" := "v1.0.0"]}); reflexivity.
  - apply Hnone; [left; reflexivity|]. intros h [= <-]. reflexivity.
Defined.

(** ** C5: a legacy load with a text that is not JSON *)

Lemma xhr_load_invalid_json_witness :
  _dataType demo_xhr_request = RequestDataType.json
  /\ "<html>" <> ""
  /\ demo_JSON_parse "<html>" = None
  /\ promise (dispatchEvent demo_JSON_parse None (LoadEvent 4 404 "Not Found" "<html>")
                (requestByXHR demo_xhr_request)) = Unsettled
  /\ uncaught (dispatchEvent demo_JSON_parse None (LoadEvent 4 404 "Not Found" "<html>")
                 (requestByXHR demo_xhr_request)) = Some SyntaxError.
Proof.
  split; [reflexivity|]. split; [discriminate|]. split; [reflexivity|].
  destruct (xhr_load_invalid_json_never_settles demo_JSON_parse None demo_xhr_request
              404 "Not Found" "<html>" eq_refl ltac:(discriminate) eq_refl)
    as (H1 & H2 & _).
  split; assumption.
Defined.

(** ** C7: a query call *)

Lemma query_call_url_and_body_witness :
  method (new_Request demo_JSON_stringify demo_qs_stringify demo_window
            "/api/user/1234" (JStr "sex=M") RequestOptions.empty) = GET
  /\ _url (new_Request demo_JSON_stringify demo_qs_stringify demo_window
             "/api/user/1234" (JStr "sex=M") RequestOptions.empty)
     = "/api/user/1234?sex=M"
  /\ _url (new_Request demo_JSON_stringify demo_qs_stringify demo_window
             "/api/user/1234" (JStr "?sex=M") RequestOptions.empty)
     = "/api/user/1234?sex=M"
  /\ _url (new_Request demo_JSON_stringify demo_qs_stringify demo_window
             "/api/user/1234" (JObj [("sex", JStr "M")]) RequestOptions.empty)
     = "/api/user/1234?sex=M"
  /\ _data (new_Request demo_JSON_stringify demo_qs_stringify demo_window
              "/api/user/1234" (JStr "sex=M") RequestOptions.empty) = JNull.
Proof.
  split; [reflexivity|].
  destruct (query_call_url_and_body demo_JSON_stringify demo_qs_stringify demo_window
              "/api/user/1234" (JStr "sex=M") RequestOptions.empty
              (or_introl eq_refl))
    as (Hins & _ & _ & _ & Hdata & _).
  destruct (query_call_url_and_body demo_JSON_stringify demo_qs_stringify demo_window
              "/api/user/1234" (JStr "?sex=M") RequestOptions.empty
              (or_introl eq_refl))
    as (_ & Hkeep & _).
  destruct (query_call_url_and_body demo_JSON_stringify demo_qs_stringify demo_window
              "/api/user/1234" (JObj [("sex", JStr "M")]) RequestOptions.empty
              (or_introl eq_refl))
    as (_ & _ & _ & Hobj & _).
  split; [apply (Hins "s"%char "ex=M"); [reflexivity | discriminate]|].
  split; [apply (Hkeep "sex=M"); reflexivity|].
  split; [|exact Hdata].
  destruct (Hobj [("sex", JStr "M")] eq_refl) as (Hq & _).
  apply (Hq "s"%char "ex=M"); [reflexivity | discriminate].
Defined.

(** ** C8: observers that throw *)

(** A call that resolves, under an observer of [success] that throws: the
    exception is caught by the [catch] of the same chain, [error] and
    [complete] are fired with it, and the caller gets a rejection. *)
Lemma throwing_observer_turns_success_into_error :
  let observers := fun n => match n with
                            | OnSuccess _ _ => Some TypeError
                            | _ => None
                            end in
  let req := new_Request demo_JSON_stringify demo_qs_stringify demo_window
               "/api/user/1234" JNull RequestOptions.empty in
  let net := mkNetwork (Some (NetworkResponds (Response.mk 200 "OK" (Some (JObj [])) None)))
               [] in
  snd (request demo_JSON_parse demo_window None req net) = Resolved (JObj [])
  /\ fetch demo_JSON_parse demo_JSON_stringify demo_qs_stringify demo_window None
       observers "/api/user/1234" JNull RequestOptions.empty net
     = ([OnSuccess (JObj []) req; OnError TypeError req;
         OnComplete (Some TypeError) JNull req], Rejected TypeError).
Proof. cbv zeta. split; vm_compute; reflexivity. Qed.

(** Under an observer that throws on the [complete] of a success, the
    emitter is asked to fire [complete] twice for one call. *)
Example throwing_observer_completes_twice :
  let observers := fun n => match n with
                            | OnComplete None _ _ => Some TypeError
                            | _ => None
                            end in
  let net := mkNetwork (Some (NetworkResponds (Response.mk 200 "OK" (Some (JObj [])) None)))
               [] in
  length (filter is_complete
            (fst (fetch demo_JSON_parse demo_JSON_stringify demo_qs_stringify
                    demo_window None observers "/api/user/1234" JNull
                    RequestOptions.empty net))) = 2%nat.
Proof. vm_compute. reflexivity. Qed.

Lemma fetch_notifies_then_completes_witness :
  let observers : Notification -> option JsError := fun _ => None in
  let req := new_Request demo_JSON_stringify demo_qs_stringify demo_window
               "/api/user/1234" JNull RequestOptions.empty in
  let net := mkNetwork (Some (NetworkResponds (Response.mk 200 "OK" (Some (JObj [])) None)))
               [] in
  (forall n, observers n = None)
  /\ fetch demo_JSON_parse demo_JSON_stringify demo_qs_stringify demo_window None
       observers "/api/user/1234" JNull RequestOptions.empty net
     = ([OnSuccess (JObj []) req; OnComplete None (JObj []) req], Resolved (JObj [])).
Proof.
  cbv zeta. split; [reflexivity|].
  destruct (fetch_notifies_then_completes demo_JSON_parse demo_JSON_stringify
              demo_qs_stringify demo_window None (fun _ => None)
              "/api/user/1234" JNull RequestOptions.empty
              (mkNetwork (Some (NetworkResponds
                                  (Response.mk 200 "OK" (Some (JObj [])) None))) [])
              (fun _ => eq_refl))
    as (H & _).
  exact H.
Defined.

(** ** C10: a negative timeout *)

Lemma negative_timeout_is_no_timeout_witness :
  RequestOptions.timeout demo_negative_timeout = Some (-2000)
  /\ -2000 < 0
  /\ timeout (new_Request demo_JSON_stringify demo_qs_stringify demo_window
                "/api/timeout" JNull demo_negative_timeout) = 0
  /\ snd (requestByFetchApi demo_window None
            (new_Request demo_JSON_stringify demo_qs_stringify demo_window
               "/api/timeout" JNull demo_negative_timeout)
            (Some TimerFires)) = Unsettled.
Proof.
  split; [reflexivity|]. split; [lia|].
  destruct (negative_timeout_is_no_timeout demo_JSON_parse demo_JSON_stringify
              demo_qs_stringify demo_window None "/api/timeout" JNull
              demo_negative_timeout (-2000) eq_refl ltac:(lia))
    as (H0 & _ & _ & _ & _ & Htimer & _).
  split; assumption.
Defined.

(** * The page-wide parser *)

(** The parser installed for the whole page ([parseResponse(fn)], the
    parameter [responseParseFunction] of the class) is read at one place;
    the lemmas below follow a call through both transports with two
    different page-wide parsers. *)

Lemma shadows_global_frame r r' :
  _dataType r' = _dataType r -> parse r' = parse r ->
  shadows_global r -> shadows_global r'.
Proof. unfold shadows_global. intros -> ->. exact id. Qed.

Lemma parseResponse_shadowed g g' r result :
  shadows_global r -> parseResponse g r result = parseResponse g' r result.
Proof.
  intros [H | H]; unfold parseResponse.
  - destruct (_dataType r); [|reflexivity].
    destruct (parse r); [reflexivity | contradiction].
  - rewrite H. reflexivity.
Qed.

Lemma onFetchLoad_shadowed g g' r res :
  shadows_global r -> onFetchLoad g r res = onFetchLoad g' r res.
Proof.
  intros H. unfold onFetchLoad. cbv zeta.
  rewrite (parseResponse_shadowed g g' (finallyFetch r)); [reflexivity|].
  destruct (finallyFetch_frame r) as [Hd Hp].
  exact (shadows_global_frame r _ Hd Hp H).
Qed.

Lemma requestByFetchApi_shadowed window g g' r first :
  shadows_global r ->
  requestByFetchApi window g r first = requestByFetchApi window g' r first.
Proof.
  intros H. unfold requestByFetchApi.
  destruct (fetchTasks_frame window r) as [Hd Hp].
  destruct (fetchTasks window r) as [r' tasks]. cbn [fst] in Hd, Hp.
  unfold Promise_race. destruct first as [[res|err| |]|]; try reflexivity.
  destruct (existsb _ tasks); [|reflexivity].
  apply onFetchLoad_shadowed. exact (shadows_global_frame r _ Hd Hp H).
Qed.

Lemma dispatchEvent_shadowed JSON_parse g g' ev c :
  shadows_global (this c) ->
  dispatchEvent JSON_parse g ev c = dispatchEvent JSON_parse g' ev c.
Proof.
  intros H. unfold dispatchEvent.
  destruct (xhr (this c)) as [x|] eqn:Hx; [|reflexivity].
  destruct ev as [rs st stt txt| | |]; try reflexivity.
  destruct (XHR.onload x); [|reflexivity].
  unfold onXHRLoad. cbn [this xhr assign_xhr promise uncaught].
  destruct (_ =? 4); [|reflexivity].
  set (this' := finallyXHR _).
  assert (Hs : shadows_global this').
  { destruct (finallyXHR_frame
                (assign_xhr (Some (XHR.complete rs st stt txt x)) (this c)))
      as [Hd Hp].
    refine (shadows_global_frame (this c) _ _ _ H); subst this';
      [rewrite Hd | rewrite Hp]; destruct (this c); reflexivity. }
  match goal with |- context [bind ?c _] => destruct c as [result|e] end;
    [|reflexivity].
  cbn [bind]. rewrite (parseResponse_shadowed g g' this' result Hs). reflexivity.
Qed.

Lemma runXHR_shadowed JSON_parse g g' events c :
  shadows_global (this c) ->
  fold_left (fun c ev => dispatchEvent JSON_parse g ev c) events c
  = fold_left (fun c ev => dispatchEvent JSON_parse g' ev c) events c.
Proof.
  revert c. induction events as [|ev events IH]; intros c H; [reflexivity|].
  cbn [fold_left]. rewrite <- (dispatchEvent_shadowed JSON_parse g g' ev c H).
  apply IH. destruct (dispatchEvent_frame JSON_parse g ev c) as [Hd Hp].
  exact (shadows_global_frame (this c) _ Hd Hp H).
Qed.

(** X21.  The page-wide parser has no say in a call that brings its own
    parser or asks for text: such a call fires the same notifications and
    settles the same way under any two page-wide parsers, on either
    transport and whatever the network does. *)
Theorem own_parser_shadows_global_parser
    (JSON_parse : string -> option JsVal) (JSON_stringify qs_stringify : JsVal -> string)
    (window : Window.t) (g g' : option ParseFunction)
    (observers : Notification -> option JsError)
    (url : string) (data : JsVal) (o : RequestOptions.t) (net : Network) :
  RequestOptions.parse o <> None
  \/ RequestOptions.dataType o = Some RequestDataType.text ->
  fetch JSON_parse JSON_stringify qs_stringify window g observers url data o net
  = fetch JSON_parse JSON_stringify qs_stringify window g' observers url data o net.
Proof.
  intros H.
  assert (Hs : shadows_global (new_Request JSON_stringify qs_stringify window url data o)).
  { unfold shadows_global. rewrite new_Request_eq. cbn [parse _dataType].
    destruct H as [H | ->]; [left; exact H | right; reflexivity]. }
  unfold fetch. cbv zeta.
  set (req := new_Request JSON_stringify qs_stringify window url data o) in *.
  assert (Hr : request JSON_parse window g req net = request JSON_parse window g' req net).
  { unfold request. destruct (Window.has_fetch window && negb (useXHR req)).
    - apply requestByFetchApi_shadowed. exact Hs.
    - unfold runXHR. rewrite (runXHR_shadowed JSON_parse g g'); [reflexivity|].
      exact Hs. }
  rewrite Hr. reflexivity.
Qed.

Lemma own_parser_shadows_global_parser_witness :
  let net := mkNetwork (Some (NetworkResponds (Response.mk 200 "OK" None (Some "hello"))))
               [] in
  (RequestOptions.parse demo_text_options <> None
   \/ RequestOptions.dataType demo_text_options = Some RequestDataType.text)
  /\ fetch demo_JSON_parse demo_JSON_stringify demo_qs_stringify demo_window
       None (fun _ => None) "/api/text" JNull demo_text_options net
     = fetch demo_JSON_parse demo_JSON_stringify demo_qs_stringify demo_window
         (Some (fun _ => Throw TypeError)) (fun _ => None)
         "/api/text" JNull demo_text_options net.
Proof.
  cbv zeta. split; [right; reflexivity|].
  apply (own_parser_shadows_global_parser demo_JSON_parse demo_JSON_stringify
           demo_qs_stringify demo_window None (Some (fun _ => Throw TypeError))
           (fun _ => None) "/api/text" JNull demo_text_options).
  right. reflexivity.
Defined.

(** * The further properties at concrete inputs *)

Abbreviation demo_post_options :=
  (RequestOptions.set_method POST RequestOptions.empty).

Lemma write_call_url_and_body_witness :
  let data := JObj [("name", JStr "test")] in
  let r := new_Request demo_JSON_stringify demo_qs_stringify demo_window
             "/api/user" data demo_post_options in
  isQuery r = false /\ is_nullish data = false
  /\ _url r = "/api/user"
  /\ _data r = JStr (demo_JSON_stringify data)
  /\ RequestInit.body (fetchSettings r) = _data r.
Proof.
  cbv zeta. split; [reflexivity|]. split; [reflexivity|].
  destruct (write_call_url_and_body demo_JSON_stringify demo_qs_stringify demo_window
              "/api/user" (JObj [("name", JStr "test")]) demo_post_options
              eq_refl eq_refl)
    as (Hu & Hd & Hb & _).
  split; [exact Hu|]. split; [exact Hd | exact Hb].
Defined.

Lemma falsy_data_leaves_url_witness :
  let r := new_Request demo_JSON_stringify demo_qs_stringify demo_window
             "/api/user/1234" JNull RequestOptions.empty in
  truthy JNull = false
  /\ _url r = "/api/user/1234"
  /\ _data r = JNull
  /\ RequestInit.body (fetchSettings r) = JUndefined.
Proof.
  cbv zeta. split; [reflexivity|].
  destruct (falsy_data_leaves_url demo_JSON_stringify demo_qs_stringify demo_window
              "/api/user/1234" JNull RequestOptions.empty eq_refl)
    as (Hu & Hrest).
  destruct (Hrest eq_refl) as (Hd & Hb & _).
  split; [exact Hu|]. split; [exact Hd | exact Hb].
Defined.

Lemma upload_passes_form_data_through_witness :
  let data := JObj [("image", JStr "blob")] in
  let r := new_Request demo_JSON_stringify demo_qs_stringify demo_window
             "/api/upload/image" data
             (fst (upload demo_JSON_parse demo_JSON_stringify demo_qs_stringify
                     demo_window None (fun _ => None) "/api/upload/image" data
                     RequestOptions.empty (mkNetwork None []))) in
  is_nullish data = false
  /\ method r = POST
  /\ _type r = RequestType.form
  /\ _data r = data
  /\ headers r !! "Content-Type" = None.
Proof.
  cbv zeta. split; [reflexivity|].
  destruct (upload_passes_form_data_through demo_JSON_parse demo_JSON_stringify
              demo_qs_stringify demo_window None (fun _ => None) "/api/upload/image"
              (JObj [("image", JStr "blob")]) RequestOptions.empty
              (mkNetwork None []) eq_refl)
    as (Hm & Ht & _ & Hd & Hh).
  split; [exact Hm|]. split; [exact Ht|]. split; [exact Hd|].
  apply Hh; [left; reflexivity | reflexivity].
Defined.

Lemma positive_timeout_rejects_with_504_witness :
  let r := new_Request demo_JSON_stringify demo_qs_stringify demo_window
             "/api/timeout" JNull demo_timeout_options in
  RequestOptions.timeout demo_timeout_options = Some 2000
  /\ 0 < 2000
  /\ timeout r = 2000
  /\ snd (requestByFetchApi demo_window None r (Some TimerFires)) = timeout_failure
  /\ promise (runXHR demo_JSON_parse None r [TimeoutEvent]) = timeout_failure.
Proof.
  cbv zeta. split; [reflexivity|]. split; [lia|].
  destruct (positive_timeout_rejects_with_504 demo_JSON_parse demo_JSON_stringify
              demo_qs_stringify demo_window None "/api/timeout" JNull
              demo_timeout_options 2000 eq_refl ltac:(lia))
    as (Ht & _ & Hf & _ & _ & Hx & _).
  split; [exact Ht|]. split; [exact Hf | exact Hx].
Defined.

Lemma network_failure_is_passed_on_witness :
  let req := new_Request demo_JSON_stringify demo_qs_stringify demo_window
               "/api/user/1234" JNull RequestOptions.empty in
  let net := mkNetwork (Some (NetworkFails TypeError)) [] in
  Window.has_fetch demo_window = true
  /\ RequestOptions.useXHR RequestOptions.empty <> Some true
  /\ snd (request demo_JSON_parse demo_window None req net) = Rejected TypeError
  /\ fetch demo_JSON_parse demo_JSON_stringify demo_qs_stringify demo_window None
       (fun _ => None) "/api/user/1234" JNull RequestOptions.empty net
     = ([OnError TypeError req; OnComplete (Some TypeError) JNull req],
        Rejected TypeError).
Proof.
  cbv zeta. split; [reflexivity|]. split; [discriminate|].
  destruct (network_failure_is_passed_on demo_JSON_parse demo_JSON_stringify
              demo_qs_stringify demo_window None (fun _ => None)
              "/api/user/1234" JNull RequestOptions.empty TypeError []
              eq_refl ltac:(discriminate))
    as (Hr & Hf).
  split; [exact Hr | exact (Hf eq_refl eq_refl)].
Defined.

Lemma early_load_is_ignored_witness :
  3 <> 4
  /\ promise (runXHR demo_JSON_parse None demo_xhr_request [LoadEvent 3 200 "OK" "{}"])
     = Unsettled
  /\ promise (runXHR demo_JSON_parse None demo_xhr_request
                [LoadEvent 3 200 "OK" "{}"; LoadEvent 4 200 "OK" "{}"])
     = promise (runXHR demo_JSON_parse None demo_xhr_request [LoadEvent 4 200 "OK" "{}"]).
Proof.
  split; [lia|].
  destruct (early_load_is_ignored demo_JSON_parse None demo_xhr_request 3 200 "OK" "{}"
              [LoadEvent 4 200 "OK" "{}"] ltac:(lia))
    as (H1 & H2 & _).
  split; [exact H1 | exact H2].
Defined.

Lemma text_call_resolves_with_raw_text_witness :
  let r := new_Request demo_JSON_stringify demo_qs_stringify demo_window
             "/api/text" JNull demo_text_options in
  _dataType r = RequestDataType.text
  /\ (200 <= 200 < 300 \/ 200 = 304)
  /\ snd (onFetchLoad None r (Response.mk 200 "OK" None (Some "{}"))) = Resolved (JStr "{}")
  /\ promise (dispatchEvent demo_JSON_parse None (LoadEvent 4 200 "OK" "{}")
                (requestByXHR r)) = Resolved (JStr "{}").
Proof.
  cbv zeta. split; [reflexivity|]. split; [left; lia|].
  destruct (text_call_resolves_with_raw_text demo_JSON_parse None
              (new_Request demo_JSON_stringify demo_qs_stringify demo_window
                 "/api/text" JNull demo_text_options)
              200 "OK" eq_refl ltac:(left; lia))
    as (Hf & Hx).
  split; [exact (Hf (Response.mk 200 "OK" None (Some "{}")) eq_refl) | exact (Hx "{}")].
Defined.

Lemma exceptional_status_overrides_body_witness :
  let body := JObj demo_failure_body in
  let failure :=
    Rejected (ReqError {| RequestError.status := JNum 404;
                          RequestError.code := JStr "404";
                          RequestError.message := "Not Found";
                          RequestError.stack := None |}) in
  ~ (200 <= 404 < 300 \/ 404 = 304)
  /\ body <> JNull /\ body <> JUndefined
  /\ truthy (member body "errormsg") = false
  /\ truthy (member body "errorcode") = false
  /\ snd (onFetchLoad None demo_xhr_request (Response.mk 404 "Not Found" (Some body) None))
     = failure.
Proof.
  cbv zeta. split; [lia|]. split; [discriminate|]. split; [discriminate|].
  split; [reflexivity|]. split; [reflexivity|].
  destruct (exceptional_status_overrides_body demo_JSON_parse None demo_xhr_request
              404 "Not Found" (JObj demo_failure_body)
              ltac:(lia) ltac:(discriminate) ltac:(discriminate) eq_refl eq_refl)
    as (Hf & _).
  exact (Hf (Response.mk 404 "Not Found" (Some (JObj demo_failure_body)) None)
            eq_refl eq_refl eq_refl).
Defined.



Lemma empty_body_resolves_to_empty_object_witness :
  _dataType demo_xhr_request = RequestDataType.json
  /\ parse demo_xhr_request = None
  /\ (200 <= 204 < 300 \/ 204 = 304)
  /\ snd (onFetchLoad None demo_xhr_request (Response.mk 204 "No Content" None None))
     = Resolved (JObj [])
  /\ promise (dispatchEvent demo_JSON_parse None (LoadEvent 4 204 "No Content" "")
                (requestByXHR demo_xhr_request)) = Resolved (JObj []).
Proof.
  split; [reflexivity|]. split; [reflexivity|]. split; [left; lia|].
  destruct (empty_body_resolves_to_empty_object demo_JSON_parse None demo_xhr_request
              204 "No Content" eq_refl eq_refl eq_refl ltac:(left; lia))
    as (Hf & Hx).
  split; [exact (Hf (Response.mk 204 "No Content" None None) eq_refl eq_refl) | exact Hx].
Defined.

Lemma default_parser_normalises_witness :
  let wrapped := JObj [("success", JBool true); ("statusCode", JNum 200);
                       ("errorCode", JNum 0); ("errorMessage", JNull);
                       ("errorStack", JNull); ("data", JStr "plain")] in
  defaultParseResponse (JStr "plain") = Normal wrapped
  /\ defaultParseResponse wrapped = Normal wrapped.
Proof.
  cbv zeta. split; [reflexivity|].
  apply (default_parser_normalises (JStr "plain")). reflexivity.
Defined.
